(** * score_predictions.py: a shallow embedding and its properties

    The scorer joins a dataset of expected workout prescriptions with a file
    of predictions, evaluates every main-lift entry and prints agreement,
    error and decision statistics, overall and per user.

    The script works on whatever [json.loads] returns, so the embedding
    keeps Python's dynamic values ([pyval]), its exceptions ([result]) and
    its dictionaries: the predictions index is a finite map over hashed
    identity keys, the per-user aggregate an insertion-ordered dictionary. *)

From Stdlib Require Import ZArith String Ascii List Bool Lia Permutation.
From Stdlib Require Import Floats.SpecFloat Sorted.
From stdpp Require Import base option list gmap strings countable.

Open Scope Z_scope.

(** ** Exceptions *)

Inductive exn :=
  | KeyError | TypeError | AttributeError | ValueError | OverflowError
  | ZeroDivisionError | OSError | JSONDecodeError.

Inductive result (A : Type) :=
  | Ok (a : A)
  | Raise (e : exn).
Arguments Ok {A} a.
Arguments Raise {A} e.

#[global] Instance result_ret : MRet result := fun _ a => Ok a.
#[global] Instance result_bind : MBind result := fun _ _ f m =>
  match m with Ok a => f a | Raise e => Raise e end.

(** ** Python values, as produced by the JSON decoder *)

(** IEEE binary64, the representation of Python's [float]. *)
Definition float := spec_float.
Definition prec : Z := 53.
Definition emax : Z := 1024.

Definition fsub : float -> float -> float := SFsub prec emax.
Definition fadd : float -> float -> float := SFadd prec emax.
Definition fdiv : float -> float -> float := SFdiv prec emax.
Definition fabs : float -> float := SFabs.
Definition fleb : float -> float -> bool := SFleb.
Definition feqb : float -> float -> bool := SFeqb.
Definition nan : float := S754_nan.

(** A [str] is a sequence of code points; a [dict] decoded from a JSON
    object has string keys and keeps their order of insertion. *)
#[warnings="-register-all"]
Inductive pyval :=
  | VNone
  | VBool (b : bool)
  | VInt (z : Z)
  | VFloat (f : float)
  | VStr (s : string)
  | VList (l : list pyval)
  | VDict (d : list (string * pyval)).

Definition is_float_zero (f : float) : bool :=
  match f with S754_zero _ => true | _ => false end.

(** [bool(v)]: what [not v], [v or w] and [if v] test. *)
Definition truthy (v : pyval) : bool :=
  match v with
  | VNone => false
  | VBool b => b
  | VInt z => negb (z =? 0)
  | VFloat f => negb (is_float_zero f)
  | VStr s => negb (String.eqb s "")
  | VList l => match l with [] => false | _ => true end
  | VDict d => match d with [] => false | _ => true end
  end.

(** [v or w] *)
Definition py_or (v w : pyval) : pyval := if truthy v then v else w.

(** [v is not None] *)
Definition is_not_None (v : pyval) : bool :=
  match v with VNone => false | _ => true end.

Fixpoint assoc (k : string) (d : list (string * pyval)) : option pyval :=
  match d with
  | [] => None
  | (k', v) :: d' => if String.eqb k k' then Some v else assoc k d'
  end.

(** [d.get(k, dflt)]; only a [dict] has the method. *)
Definition get (d : pyval) (k : string) (dflt : pyval) : result pyval :=
  match d with
  | VDict kvs => Ok (default dflt (assoc k kvs))
  | _ => Raise AttributeError
  end.

(** [r[k]] for a string [k]. *)
Definition getitem (r : pyval) (k : string) : result pyval :=
  match r with
  | VDict kvs => match assoc k kvs with Some v => Ok v | None => Raise KeyError end
  | _ => Raise TypeError
  end.

Definition chars (s : string) : list pyval :=
  map (fun c => VStr (String c EmptyString)) (list_ascii_of_string s).

(** [iter(v)]: the items a [for] loop or an unpacking sees. *)
Definition py_iter (v : pyval) : result (list pyval) :=
  match v with
  | VList l => Ok l
  | VDict d => Ok (map (fun kv => VStr (fst kv)) d)
  | VStr s => Ok (chars s)
  | _ => Raise TypeError
  end.

(** [a, b = v] *)
Definition unpack2 (v : pyval) : result (pyval * pyval) :=
  l ← py_iter v;
  match l with
  | [a; b] => Ok (a, b)
  | _ => Raise ValueError
  end.

(** ** Numbers: exact comparison across [bool], [int] and [float] *)

(** The value of a number in canonical form: a dyadic rational [m * 2^e]
    with [m] odd (or [0 * 2^0]), an infinity, or not-a-number. *)
Inductive cnum :=
  | CNan
  | CInf (neg : bool)
  | CDy (m e : Z).

Fixpoint strip_pos (p : positive) (e : Z) : positive * Z :=
  match p with
  | xO p' => strip_pos p' (e + 1)
  | _ => (p, e)
  end.

Definition dyadic (m e : Z) : cnum :=
  match m with
  | Z0 => CDy 0 0
  | Zpos p => let '(q, e') := strip_pos p e in CDy (Zpos q) e'
  | Zneg p => let '(q, e') := strip_pos p e in CDy (Zneg q) e'
  end.

Definition canon_int (z : Z) : cnum := dyadic z 0.

Definition canon_float (f : float) : cnum :=
  match f with
  | S754_zero _ => CDy 0 0
  | S754_infinity s => CInf s
  | S754_nan => CNan
  | S754_finite s m e => dyadic (cond_Zopp s (Zpos m)) e
  end.

(** The numeric value of a [bool], [int] or [float]. *)
Definition num_of (v : pyval) : option cnum :=
  match v with
  | VBool b => Some (canon_int (Z.b2z b))
  | VInt z => Some (canon_int z)
  | VFloat f => Some (canon_float f)
  | _ => None
  end.

#[global] Instance cnum_eq_dec : EqDecision cnum.
Proof. solve_decision. Defined.

(** [x == y] on numbers: not-a-number equals nothing. *)
Definition cnum_eqb (x y : cnum) : bool :=
  match x, y with
  | CNan, _ | _, CNan => false
  | _, _ => bool_decide (x = y)
  end.

(** [x < y] on numbers. *)
Definition cnum_ltb (x y : cnum) : bool :=
  match x, y with
  | CNan, _ | _, CNan => false
  | CInf s1, CInf s2 => s1 && negb s2
  | CInf s, CDy _ _ => s
  | CDy _ _, CInf s => negb s
  | CDy m1 e1, CDy m2 e2 =>
      let e := Z.min e1 e2 in
      m1 * 2 ^ (e1 - e) <? m2 * 2 ^ (e2 - e)
  end.

(** ** Equality of values: [a == b] *)

(** The comparison a container applies to its items is "the same object,
    or equal".  Every not-a-number the JSON decoder returns is one and the
    same object, and two other decoded values that are the same object are
    equal anyway, so the identity test only matters for not-a-number. *)
Definition both_nan (a b : pyval) : bool :=
  match a, b with
  | VFloat S754_nan, VFloat S754_nan => true
  | _, _ => false
  end.

Fixpoint py_eq (a b : pyval) {struct a} : bool :=
  match a, b with
  | VNone, VNone => true
  | VStr s, VStr t => String.eqb s t
  | VList xs, VList ys =>
      (fix items (xs ys : list pyval) {struct xs} : bool :=
         match xs, ys with
         | [], [] => true
         | x :: xs', y :: ys' => (both_nan x y || py_eq x y) && items xs' ys'
         | _, _ => false
         end) xs ys
  | VDict d1, VDict d2 =>
      (length d1 =? length d2)%nat &&
      (fix entries (d : list (string * pyval)) {struct d} : bool :=
         match d with
         | [] => true
         | (k, v) :: d' =>
             match assoc k d2 with
             | Some w => (both_nan v w || py_eq v w) && entries d'
             | None => false
             end
         end) d1
  | VBool c, _ =>
      match num_of b with Some y => cnum_eqb (canon_int (Z.b2z c)) y | None => false end
  | VInt z, _ =>
      match num_of b with Some y => cnum_eqb (canon_int z) y | None => false end
  | VFloat f, _ =>
      match num_of b with Some y => cnum_eqb (canon_float f) y | None => false end
  | _, _ => false
  end.

(** ** Hashing: what may be a dictionary key or a set member *)

(** Two hashable values are the same key when they are the same object or
    equal; [ckey] is the canonical form of a key under that relation, so
    [True], [1] and [1.0] are one key.  Lists and dictionaries are
    unhashable. *)
Inductive ckey :=
  | KNone
  | KNum (c : cnum)
  | KStr (s : string).

#[global] Instance ckey_eq_dec : EqDecision ckey.
Proof. solve_decision. Defined.

Definition cnum_code (c : cnum) : unit + bool + Z * Z :=
  match c with
  | CNan => inl (inl tt)
  | CInf s => inl (inr s)
  | CDy m e => inr (m, e)
  end.

Definition cnum_decode (x : unit + bool + Z * Z) : cnum :=
  match x with
  | inl (inl _) => CNan
  | inl (inr s) => CInf s
  | inr (m, e) => CDy m e
  end.

#[global] Instance cnum_countable : Countable cnum.
Proof. apply (inj_countable' cnum_code cnum_decode). by intros []. Defined.

Definition ckey_code (k : ckey) : unit + cnum + string :=
  match k with
  | KNone => inl (inl tt)
  | KNum c => inl (inr c)
  | KStr s => inr s
  end.

Definition ckey_decode (x : unit + cnum + string) : ckey :=
  match x with
  | inl (inl _) => KNone
  | inl (inr c) => KNum c
  | inr s => KStr s
  end.

#[global] Instance ckey_countable : Countable ckey.
Proof. apply (inj_countable' ckey_code ckey_decode). by intros []. Defined.

(** [hash(v)], as far as dictionaries and sets depend on it. *)
Definition hash_of (v : pyval) : result ckey :=
  match v with
  | VNone => Ok KNone
  | VBool b => Ok (KNum (canon_int (Z.b2z b)))
  | VInt z => Ok (KNum (canon_int z))
  | VFloat f => Ok (KNum (canon_float f))
  | VStr s => Ok (KStr s)
  | VList _ | VDict _ => Raise TypeError
  end.

(** The hashed identity key of a record. *)
Abbreviation ident := (ckey * ckey * ckey)%type.

Definition hash_key (k : pyval * pyval * pyval) : result ident :=
  let '(u, d, s) := k in
  hu ← hash_of u; hd ← hash_of d; hs ← hash_of s; Ok (hu, hd, hs).

(** [a < b] between two keys, as [sorted] asks it. *)
Definition ckey_lt (a b : ckey) : result bool :=
  match a, b with
  | KNum x, KNum y => Ok (cnum_ltb x y)
  | KStr s, KStr t => Ok (String.ltb s t)
  | _, _ => Raise TypeError
  end.

(** ** Conversions and arithmetic on [float] *)

(** [float(n)] for an [int]: the nearest binary64, ties to even. *)
Definition float_of_int (z : Z) : float := binary_normalize prec emax z 0 false.

Definition is_infinite (f : float) : bool :=
  match f with S754_infinity _ => true | _ => false end.

(** [sum(l)] for a list of floats: from left to right, starting at [0]. *)
Definition py_sum (l : list float) : float := fold_left fadd l (float_of_int 0).

(** [a / b] for two [int]s that [float] represents exactly (any count below
    [2^53]). *)
Definition truediv_int (a b : nat) : result float :=
  if (b =? 0)%nat then Raise ZeroDivisionError
  else Ok (fdiv (float_of_int (Z.of_nat a)) (float_of_int (Z.of_nat b))).

(** [x / n] for a [float] and an [int]. *)
Definition truediv_float (x : float) (n : nat) : result float :=
  if (n =? 0)%nat then Raise ZeroDivisionError
  else Ok (fdiv x (float_of_int (Z.of_nat n))).

(** ** The script's constants and pure helpers *)

Definition MAIN : gset string := {[ "squat"; "bench"; "deadlift"; "ohp" ]}.

(** [lift in MAIN]: membership hashes its argument. *)
Definition in_MAIN (lift : pyval) : result bool :=
  match lift with
  | VStr s => Ok (bool_decide (s ∈ MAIN))
  | VList _ | VDict _ => Raise TypeError
  | _ => Ok false
  end.

Definition key (r : pyval) : result (pyval * pyval * pyval) :=
  u ← getitem r "user_id";
  d ← getitem r "date";
  s ← getitem r "session_type";
  Ok (u, d, s).

Fixpoint find_in (xs : list pyval) (lift : pyval) : result pyval :=
  match xs with
  | [] => Ok VNone
  | x :: xs' =>
      l ← get x "lift" VNone;
      if py_eq l lift then Ok x else find_in xs' lift
  end.

Definition find_by_lift (lst lift : pyval) : result pyval :=
  xs ← py_iter lst; find_in xs lift.

Definition in_range (x lo hi : float) : bool := fleb lo x && fleb x hi.

(** ** Aggregates *)

(** The five running figures, kept once overall and once per user. *)
Record stats := {
  total : nat;
  agree : nat;
  abs_err : list float;
  decision_ok : nat;
  decision_total : nat
}.

Definition zero_stats : stats :=
  {| total := 0; agree := 0; abs_err := []; decision_ok := 0; decision_total := 0 |}.

Definition inc_total (s : stats) : stats :=
  {| total := S (total s); agree := agree s; abs_err := abs_err s;
     decision_ok := decision_ok s; decision_total := decision_total s |}.

Definition inc_agree (s : stats) : stats :=
  {| total := total s; agree := S (agree s); abs_err := abs_err s;
     decision_ok := decision_ok s; decision_total := decision_total s |}.

Definition push_err (err : float) (s : stats) : stats :=
  {| total := total s; agree := agree s; abs_err := abs_err s ++ [err];
     decision_ok := decision_ok s; decision_total := decision_total s |}.

Definition inc_decision_ok (s : stats) : stats :=
  {| total := total s; agree := agree s; abs_err := abs_err s;
     decision_ok := S (decision_ok s); decision_total := decision_total s |}.

Definition inc_decision_total (s : stats) : stats :=
  {| total := total s; agree := agree s; abs_err := abs_err s;
     decision_ok := decision_ok s; decision_total := S (decision_total s) |}.

(** [per_user]: a [defaultdict] in insertion order; an entry keeps its
    hashed key, the key object first inserted and the user's figures. *)
Definition user_dict : Type := list (ckey * (pyval * stats)).

(** [per_user[u][field] = f(per_user[u][field])]: a missing entry is created
    from the default factory first. *)
Fixpoint pu_update (k : ckey) (u : pyval) (f : stats -> stats) (pu : user_dict)
  : user_dict :=
  match pu with
  | [] => [(k, (u, f zero_stats))]
  | (k', (u', s)) :: rest =>
      if decide (k = k') then (k', (u', f s)) :: rest
      else (k', (u', s)) :: pu_update k u f rest
  end.

Fixpoint pu_lookup (k : ckey) (pu : user_dict) : option stats :=
  match pu with
  | [] => None
  | (k', (_, s)) :: rest => if decide (k = k') then Some s else pu_lookup k rest
  end.

(** What [per_user[u]] reads: the entry, or the default. *)
Definition user_stats (k : ckey) (pu : user_dict) : stats :=
  default zero_stats (pu_lookup k pu).

Record tally := {
  overall : stats;
  per_user : user_dict
}.

Definition init_tally : tally := {| overall := zero_stats; per_user := [] |}.

(** One update of an overall figure and of the same figure of user [u]. *)
Definition both (k : ckey) (u : pyval) (f : stats -> stats) (t : tally) : tally :=
  {| overall := f (overall t); per_user := pu_update k u f (per_user t) |}.

Fixpoint foldM {A S : Type} (f : S -> A -> result S) (s : S) (l : list A)
  : result S :=
  match l with
  | [] => Ok s
  | a :: l' => s' ← f s a; foldM f s' l'
  end.

(** ** Processes: standard output, opened files, exit *)

(** A piece of an f-string: literal text, [{v}] or [{v:.2f}]. *)
Inductive frag :=
  | Lit (s : string)
  | Fmt (v : pyval)
  | Fmt2f (v : pyval).

Definition line : Type := list frag.

Record world := {
  stdout : list line;
  opened : list string
}.

Definition start : world := {| stdout := []; opened := [] |}.

Inductive outcome (A : Type) :=
  | Done (a : A)
  | Uncaught (e : exn)
  | SystemExit (code : Z).
Arguments Done {A} a.
Arguments Uncaught {A} e.
Arguments SystemExit {A} code.

Definition io (A : Type) : Type := world -> world * outcome A.

#[global] Instance io_ret : MRet io := fun _ a w => (w, Done a).
#[global] Instance io_bind : MBind io := fun _ _ f m w =>
  match m w with
  | (w', Done a) => f a w'
  | (w', Uncaught e) => (w', Uncaught e)
  | (w', SystemExit c) => (w', SystemExit c)
  end.

Definition lift {A : Type} (r : result A) : io A := fun w =>
  match r with
  | Ok a => (w, Done a)
  | Raise e => (w, Uncaught e)
  end.

Definition print (l : line) : io unit := fun w =>
  ({| stdout := stdout w ++ [l]; opened := opened w |}, Done tt).

Definition sys_exit {A : Type} (code : Z) : io A := fun w => (w, SystemExit code).

Fixpoint for_each {A : Type} (f : A -> io unit) (l : list A) : io unit :=
  match l with
  | [] => mret tt
  | a :: l' => f a ≫= fun _ => for_each f l'
  end.

(** The status the interpreter exits with. *)
Definition exit_code {A : Type} (o : outcome A) : Z :=
  match o with
  | Done _ => 0
  | Uncaught _ => 1
  | SystemExit c => c
  end.

(** [line.strip()] is empty: every code point is white space. *)
Definition is_space (c : ascii) : bool :=
  let n := nat_of_ascii c in
  ((9 <=? n) && (n <=? 13) || (28 <=? n) && (n <=? 32) || (n =? 133) || (n =? 160))%nat.

Definition blank (s : string) : bool := forallb is_space (list_ascii_of_string s).

Definition usage : line := [Lit "Usage: score_predictions.py dataset.jsonl predictions.jsonl"].

(** ** Sample data: the scenario of the specification and an environment *)

Definition sample_expected : pyval :=
  VDict [("lift", VStr "squat"); ("prescribed_weight_lb", VInt 200);
         ("acceptable_range_lb", VList [VInt 190; VInt 210]);
         ("decision", VStr "increase")].

Definition sample_predicted : pyval :=
  VDict [("lift", VStr "squat"); ("prescribed_weight_lb", VInt 205);
         ("decision", VStr "increase")].

Definition sample_record : pyval :=
  VDict [("user_id", VStr "u1"); ("date", VStr "2024-01-01");
         ("session_type", VStr "A");
         ("expected",
          VDict [("session_prescription_for_today", VList [sample_expected])])].

Definition sample_prediction : pyval :=
  VDict [("user_id", VStr "u1"); ("date", VStr "2024-01-01");
         ("session_type", VStr "A");
         ("engine_output",
          VDict [("session_prescription_for_today", VList [sample_predicted])])].

(** A later prediction for the same session, with another weight. *)
Definition sample_prediction_late : pyval :=
  VDict [("user_id", VStr "u1"); ("date", VStr "2024-01-01");
         ("session_type", VStr "A");
         ("engine_output",
          VDict [("session_prescription_for_today",
                  VList [VDict [("lift", VStr "squat");
                                ("prescribed_weight_lb", VInt 215)]])])].

(** A prediction for another user. *)
Definition sample_prediction_other : pyval :=
  VDict [("user_id", VStr "u2"); ("date", VStr "2024-01-01");
         ("session_type", VStr "A");
         ("engine_output", VDict [("session_prescription_for_today", VList [])])].

(** A prescription with two entries for the squat. *)
Definition sample_bench : pyval :=
  VDict [("lift", VStr "bench"); ("prescribed_weight_lb", VInt 135)].

Definition sample_squat_again : pyval :=
  VDict [("lift", VStr "squat"); ("prescribed_weight_lb", VInt 225)].

Definition sample_prescription : list pyval :=
  [sample_bench; sample_predicted; sample_squat_again].

(** The index of the sample prediction alone. *)
Definition sample_index : gmap ident pyval :=
  <[(KStr "u1", KStr "2024-01-01", KStr "A") := sample_prediction]> ∅.

(** The lift names in the words of the specification. *)
Definition named_lifts : list string :=
  ["squat"; "bench press"; "deadlift"; "overhead press"].

(** An environment with two files of one record each; the decoder knows
    the two lines, and no string is a number. *)
Definition sample_loads (s : string) : option pyval :=
  if String.eqb s "expected-1" then Some sample_record
  else if String.eqb s "predicted-1" then Some sample_prediction
  else None.

Definition sample_float_of_str (s : string) : option float := None.

Definition sample_fs (path : string) : option (list string) :=
  if String.eqb path "dataset.jsonl" then Some ["expected-1"; " "]
  else if String.eqb path "predictions.jsonl" then Some ["predicted-1"]
  else None.

(** A second user, with the same prescription and prediction. *)
Definition sample_record_u2 : pyval :=
  VDict [("user_id", VStr "u2"); ("date", VStr "2024-01-01");
         ("session_type", VStr "A");
         ("expected",
          VDict [("session_prescription_for_today", VList [sample_expected])])].

Definition sample_prediction_u2 : pyval :=
  VDict [("user_id", VStr "u2"); ("date", VStr "2024-01-01");
         ("session_type", VStr "A");
         ("engine_output",
          VDict [("session_prescription_for_today", VList [sample_predicted])])].

Definition sample_index2 : gmap ident pyval :=
  <[(KStr "u2", KStr "2024-01-01", KStr "A") := sample_prediction_u2]> sample_index.




(** An entry without a weight, one with three bounds, and a record
    without [user_id]. *)
Definition sample_bare : pyval := VDict [("lift", VStr "squat")].

Definition sample_three_bounds : pyval :=
  VDict [("lift", VStr "squat"); ("prescribed_weight_lb", VInt 200);
         ("acceptable_range_lb", VList [VInt 190; VInt 200; VInt 210])].

Definition sample_no_user : list (string * pyval) :=
  [("date", VStr "2024-01-01"); ("session_type", VStr "A");
   ("expected",
    VDict [("session_prescription_for_today", VList [sample_expected])])].

(** A dataset file whose second line does not decode. *)
Definition sample_fs_broken (path : string) : option (list string) :=
  if String.eqb path "dataset.jsonl" then Some ["expected-1"; "{oops"]
  else None.


Section Scorer.

Set Default Proof Using "Type".

(** The decoder [json.loads], the parser behind [float(s)] for a string and
    the lines of each readable file are the script's environment. *)
Variable json_loads : string -> option pyval.
Variable float_of_str : string -> option float.
Variable fs : string -> option (list string).

(** [float(v)] *)
Definition to_float (v : pyval) : result float :=
  match v with
  | VBool b => Ok (float_of_int (Z.b2z b))
  | VInt z =>
      let f := float_of_int z in
      if is_infinite f then Raise OverflowError else Ok f
  | VFloat f => Ok f
  | VStr s => match float_of_str s with Some f => Ok f | None => Raise ValueError end
  | VNone | VList _ | VDict _ => Raise TypeError
  end.

(** [float(x.get("prescribed_weight_lb") or 0)] *)
Definition weight (x : pyval) : result float :=
  v ← get x "prescribed_weight_lb" VNone;
  to_float (py_or v (VInt 0)).

(** [lo, hi = e.get("acceptable_range_lb") or [e_w, e_w]], both through
    [float]. *)
Definition acceptable_range (e : pyval) (e_w : float) : result (float * float) :=
  rg ← get e "acceptable_range_lb" VNone;
  '(lo, hi) ← unpack2 (py_or rg (VList [VFloat e_w; VFloat e_w]));
  lo ← to_float lo;
  hi ← to_float hi;
  Ok (lo, hi).

(** Lines 55 to 78: the entry [e] is evaluated against its match [p]. *)
Definition record_entry (k : ckey) (u : pyval) (e p : pyval) (t : tally)
  : result tally :=
  let t := both k u inc_total t in
  e_w ← weight e;
  p_w ← weight p;
  '(lo, hi) ← acceptable_range e e_w;
  let err := fabs (fsub e_w p_w) in
  let t := both k u (push_err err) t in
  let t := if in_range p_w lo hi then both k u inc_agree t else t in
  e_d ← get e "decision" VNone;
  p_d ← get p "decision" VNone;
  Ok (if is_not_None e_d && is_not_None p_d then
        let t := both k u inc_decision_total t in
        if py_eq e_d p_d then both k u inc_decision_ok t else t
      else t).

(** The body of the inner loop, for one expected entry [e]. *)
Definition step_entry (k : ckey) (u : pyval) (pred_list : pyval)
    (t : tally) (e : pyval) : result tally :=
  lift ← get e "lift" VNone;
  m ← in_MAIN lift;
  if negb m then Ok t else
  p ← find_by_lift pred_list lift;
  if negb (truthy p) then Ok t else
  record_entry k u e p t.

(** [r.get("expected", {}).get("session_prescription_for_today")] *)
Definition expected_list (r : pyval) : result pyval :=
  ex ← get r "expected" (VDict []);
  get ex "session_prescription_for_today" VNone.

(** [q.get("engine_output", {}).get("session_prescription_for_today", [])] *)
Definition predicted_list (q : pyval) : result pyval :=
  eo ← get q "engine_output" (VDict []);
  get eo "session_prescription_for_today" (VList []).

(** The body of the outer loop, for one dataset record [r].  The user's
    entry of [per_user] is addressed by [r["user_id"]], the first component
    of the key. *)
Definition step_record (pred : gmap ident pyval) (t : tally) (r : pyval)
  : result tally :=
  exp_list ← expected_list r;
  if negb (truthy exp_list) then Ok t else
  k ← key r;
  h ← hash_key k;
  match pred !! h with
  | None => Ok t
  | Some q =>
      pred_list ← predicted_list q;
      es ← py_iter exp_list;
      foldM (step_entry h.1.1 k.1.1 pred_list) t es
  end.

Definition evaluate (pred : gmap ident pyval) (ds : list pyval) : result tally :=
  foldM (step_record pred) init_tally ds.

(** [pred = {key(r): r for r in pr}] *)
Definition index_step (m : gmap ident pyval) (r : pyval)
  : result (gmap ident pyval) :=
  k ← key r;
  h ← hash_key k;
  Ok (<[h := r]> m).

Definition build_index (pr : list pyval) : result (gmap ident pyval) :=
  foldM index_step ∅ pr.

(** *** Loading *)

Fixpoint parse_lines (ls : list string) : result (list pyval) :=
  match ls with
  | [] => Ok []
  | l :: ls' =>
      if blank l then parse_lines ls'
      else match json_loads l with
           | None => Raise JSONDecodeError
           | Some v => out ← parse_lines ls'; Ok (v :: out)
           end
  end.

Definition open_read (path : string) : io (list string) := fun w =>
  let w' := {| stdout := stdout w; opened := opened w ++ [path] |} in
  match fs path with
  | Some ls => (w', Done ls)
  | None => (w', Uncaught OSError)
  end.

Definition load_jsonl (path : string) : io (list pyval) :=
  ls ← open_read path; lift (parse_lines ls).

(** *** Reporting *)

(** [sum(l)/len(l) if l else float("nan")] *)
Definition mean (l : list float) : result pyval :=
  match l with
  | [] => Ok (VFloat nan)
  | _ => f ← truediv_float (py_sum l) (length l); Ok (VFloat f)
  end.

(** [a/t if t else 0] *)
Definition rate (a t : nat) : result pyval :=
  if truthy (VInt (Z.of_nat t)) then f ← truediv_int a t; Ok (VFloat f)
  else Ok (VInt 0).

Definition int (n : nat) : pyval := VInt (Z.of_nat n).

(** [(u1, s1) < (u2, s2)]: the first components decide unless they are the
    same key, and two dictionaries do not compare. *)
Definition item_lt (x y : ckey * (pyval * stats)) : result bool :=
  if decide (x.1 = y.1) then Raise TypeError else ckey_lt x.1 y.1.

Fixpoint insert_sorted (x : ckey * (pyval * stats)) (l : user_dict)
  : result user_dict :=
  match l with
  | [] => Ok [x]
  | y :: l' =>
      b ← item_lt y x;
      if b : bool then (r ← insert_sorted x l'; Ok (y :: r)) else Ok (x :: l)
  end.

(** [sorted(per_user.items())]: a stable sort that asks only [<].  On keys
    that [<] orders totally every such sort returns this list. *)
Fixpoint sorted (l : user_dict) : result user_dict :=
  match l with
  | [] => Ok []
  | x :: l' => r ← sorted l'; insert_sorted x r
  end.

(** The text of the line of one user: lines 86 to 89, up to [print]. *)
Definition user_text (it : ckey * (pyval * stats)) : result line :=
  let '(_, (u, s)) := it in
  user_mae ← mean (abs_err s);
  agree_rate ← rate (agree s) (total s);
  dec_rate ← rate (decision_ok s) (decision_total s);
  Ok [Lit "  "; Fmt u; Lit ": agree "; Fmt2f agree_rate; Lit ", MAE ";
      Fmt2f user_mae; Lit " lb, decisionAcc "; Fmt2f dec_rate; Lit ", n=";
      Fmt (int (total s))].

Definition user_line (it : ckey * (pyval * stats)) : io unit :=
  l ← lift (user_text it); print l.

Definition report (t : tally) : io unit :=
  let g := overall t in
  mae ← lift (mean (abs_err g));
  r ← lift (rate (agree g) (total g));
  print [Lit "Main lift load agreement: "; Fmt (int (agree g)); Lit "/";
         Fmt (int (total g)); Lit " = "; Fmt2f r];;
  print [Lit "Main lift MAE (point label): "; Fmt2f mae; Lit " lb"];;
  r ← lift (rate (decision_ok g) (decision_total g));
  print [Lit "Decision accuracy: "; Fmt (int (decision_ok g)); Lit "/";
         Fmt (int (decision_total g)); Lit " = "; Fmt2f r];;
  print [Lit "Per-user:"];;
  items ← lift (sorted (per_user t));
  for_each user_line items.

(** *** The program *)

Definition main (argv : list string) : io unit :=
  (if decide (length argv ≠ 3%nat)
   then print usage;; sys_exit 2
   else mret tt);;
  ds ← load_jsonl (default "" (argv !! 1%nat));
  pr ← load_jsonl (default "" (argv !! 2%nat));
  pred ← lift (build_index pr);
  t ← lift (evaluate pred ds);
  report t.

(** ** Notions the properties are stated with *)

(** The hashed identity key of a record, when it has one. *)
Definition ident_of (r : pyval) : result ident := k ← key r; hash_key k.

(** What evaluating one entry does to a set of figures: the error is [err],
    [ok] tells whether the weight agrees, [dec] whether the decisions were
    compared and, if so, whether they are equal. *)
Definition entry_effect (err : float) (ok : bool) (dec : option bool) (s : stats)
  : stats :=
  {| total := S (total s);
     agree := if ok then S (agree s) else agree s;
     abs_err := abs_err s ++ [err];
     decision_ok := if default false dec then S (decision_ok s) else decision_ok s;
     decision_total := if bool_decide (is_Some dec) then S (decision_total s)
                       else decision_total s |}.

(** How the decisions [e_d] and [p_d] of an entry count. *)
Definition decision_of (e_d p_d : pyval) : option bool :=
  if is_not_None e_d && is_not_None p_d then Some (py_eq e_d p_d) else None.

(** The figures of all users. *)
Definition users (t : tally) : list stats := map (fun it => it.2.2) (per_user t).

Definition sum_of (f : stats -> nat) (l : list stats) : nat :=
  foldr (fun s n => (f s + n)%nat) 0%nat l.

Definition samples_of (l : list stats) : list float := concat (map abs_err l).

(** The per-user figures add up to the overall ones. *)
Definition consistent (t : tally) : Prop :=
  sum_of total (users t) = total (overall t) /\
  sum_of agree (users t) = agree (overall t) /\
  sum_of decision_total (users t) = decision_total (overall t) /\
  sum_of decision_ok (users t) = decision_ok (overall t) /\
  samples_of (users t) ≡ₚ abs_err (overall t).

(** Every user in the dictionary has at least one evaluated entry. *)
Definition populated (pu : user_dict) : Prop :=
  Forall (fun it => (1 <= total it.2.2)%nat) pu.

(** What every step of the evaluation keeps. *)
Definition sound (t : tally) : Prop := consistent t /\ populated (per_user t).


(** A line that is not blank. *)
Definition has_text (l : string) : Prop := blank l = false.


(** What loading the file at [path] comes to. *)
Definition loaded (path : string) : outcome (list pyval) :=
  match fs path with
  | None => Uncaught OSError
  | Some ls =>
      match parse_lines ls with
      | Ok vs => Done vs
      | Raise e => Uncaught e
      end
  end.

(** The world after printing [ls] and opening [ps] from the start. *)
Definition after (ls : list line) (ps : list string) : world :=
  {| stdout := ls; opened := ps |}.


(** The relations among the five figures of one set. *)
Definition bounded (s : stats) : Prop :=
  (agree s <= total s)%nat /\
  (decision_ok s <= decision_total s)%nat /\
  (decision_total s <= total s)%nat /\
  length (abs_err s) = total s.

(** [x] is not below zero. *)
Definition not_negative (x : float) : Prop := SFltb x (S754_zero false) = false.

(** The hashed keys of the per-user dictionary, in insertion order. *)
Definition user_keys (pu : user_dict) : list ckey := map fst pu.






(** Two sets of figures taken together: counts add, samples follow one
    another. *)
Definition add_stats (a b : stats) : stats :=
  {| total := total a + total b;
     agree := agree a + agree b;
     abs_err := abs_err a ++ abs_err b;
     decision_ok := decision_ok a + decision_ok b;
     decision_total := decision_total a + decision_total b |}.

(** The tally [s] is the tally [t] on top of the overall figures [o] and
    the per-user figures [b]. *)
Definition shifted (o : stats) (b : ckey -> stats) (t s : tally) : Prop :=
  overall s = add_stats o (overall t) /\
  forall k, user_stats k (per_user s) = add_stats (b k) (user_stats k (per_user t)).


(** * Properties *)


Lemma bind_Ok {A B} (f : A -> result B) (m : result A) (b : B) :
  m ≫= f = Ok b -> exists a, m = Ok a /\ f a = Ok b.
Proof. destruct m as [a|e]; simpl; [eauto | discriminate]. Qed.

Lemma Ok_bind {A B} (f : A -> result B) (a : A) : Ok a ≫= f = f a.
Proof. reflexivity. Qed.

Ltac inv_bind :=
  repeat match goal with
         | H : (_ ≫= _) = Ok _ |- _ =>
             let x := fresh "x" in
             let E := fresh "E" in
             apply bind_Ok in H as (x & E & H)
         end.

(** ** Folding with exceptions *)

Lemma foldM_app {A S} (f : S -> A -> result S) (s : S) (l1 l2 : list A) :
  foldM f s (l1 ++ l2) = foldM f s l1 ≫= fun s' => foldM f s' l2.
Proof.
  revert s. induction l1 as [|a l1 IH]; intros s; simpl; [done|].
  destruct (f s a) as [s'|e]; simpl; [apply IH | done].
Qed.

Lemma foldM_invariant {A S} (P : S -> Prop) (f : S -> A -> result S) (l : list A) :
  (forall s a s', P s -> f s a = Ok s' -> P s') ->
  forall s s', P s -> foldM f s l = Ok s' -> P s'.
Proof.
  intros Hstep. induction l as [|a l IH]; intros s s' Hs H; simpl in H.
  - by injection H as <-.
  - inv_bind. eauto.
Qed.

(** ** The per-user dictionary *)

Lemma pu_lookup_update (k : ckey) (u : pyval) (f : stats -> stats) (pu : user_dict) :
  pu_lookup k (pu_update k u f pu) = Some (f (user_stats k pu)).
Proof.
  unfold user_stats. induction pu as [|[k' [u' s]] pu IH]; simpl.
  - by rewrite decide_True.
  - destruct (decide (k = k')); simpl.
    + by rewrite decide_True.
    + by rewrite decide_False.
Qed.

Lemma pu_lookup_update_ne (k k' : ckey) (u : pyval) (f : stats -> stats)
    (pu : user_dict) :
  k' ≠ k -> pu_lookup k' (pu_update k u f pu) = pu_lookup k' pu.
Proof.
  intros Hne. induction pu as [|[k0 [u0 s]] pu IH]; simpl.
  - by rewrite decide_False.
  - destruct (decide (k = k0)); simpl.
    + subst. by rewrite !decide_False.
    + destruct (decide (k' = k0)); [done | apply IH].
Qed.

Lemma pu_update_twice (k : ckey) (u : pyval) (f g : stats -> stats) (pu : user_dict) :
  pu_update k u f (pu_update k u g pu) = pu_update k u (f ∘ g) pu.
Proof.
  induction pu as [|[k' [u' s]] pu IH]; simpl.
  - by rewrite decide_True.
  - destruct (decide (k = k')); simpl.
    + by rewrite decide_True.
    + rewrite decide_False by done. by rewrite IH.
Qed.

Lemma both_twice (k : ckey) (u : pyval) (f g : stats -> stats) (t : tally) :
  both k u f (both k u g t) = both k u (f ∘ g) t.
Proof. unfold both; simpl. by rewrite pu_update_twice. Qed.

Lemma both_ext (k : ckey) (u : pyval) (f g : stats -> stats) (t : tally) :
  (forall s, f s = g s) -> both k u f t = both k u g t.
Proof.
  intros Hfg. unfold both. rewrite Hfg. f_equal.
  induction (per_user t) as [|[k' [u' s]] pu IH]; simpl.
  - by rewrite Hfg.
  - destruct (decide (k = k')); [by rewrite Hfg | by rewrite IH].
Qed.

Lemma user_stats_both (k : ckey) (u : pyval) (f : stats -> stats) (t : tally) :
  user_stats k (per_user (both k u f t)) = f (user_stats k (per_user t)).
Proof. unfold both; simpl. unfold user_stats at 1. by rewrite pu_lookup_update. Qed.

Lemma user_stats_both_ne (k k' : ckey) (u : pyval) (f : stats -> stats) (t : tally) :
  k' ≠ k -> user_stats k' (per_user (both k u f t)) = user_stats k' (per_user t).
Proof. intros Hne. unfold both, user_stats; simpl. by rewrite pu_lookup_update_ne. Qed.

(** ** One evaluated entry *)

(** Evaluating an entry is one [entry_effect], applied to the overall
    figures and to the figures of the user. *)
Lemma record_entry_spec (k : ckey) (u e p : pyval) (t t' : tally) :
  record_entry k u e p t = Ok t' ->
  exists e_w p_w lo hi e_d p_d,
    weight e = Ok e_w /\ weight p = Ok p_w /\
    acceptable_range e e_w = Ok (lo, hi) /\
    get e "decision" VNone = Ok e_d /\ get p "decision" VNone = Ok p_d /\
    t' = both k u (entry_effect (fabs (fsub e_w p_w)) (in_range p_w lo hi)
                                (decision_of e_d p_d)) t.
Proof.
  unfold record_entry. intros H.
  apply bind_Ok in H as (e_w & He & H).
  apply bind_Ok in H as (p_w & Hp & H).
  apply bind_Ok in H as ([lo hi] & Hr & H).
  apply bind_Ok in H as (e_d & Hed & H).
  apply bind_Ok in H as (p_d & Hpd & H).
  injection H as <-.
  exists e_w, p_w, lo, hi, e_d, p_d. repeat (split; [assumption|]).
  unfold decision_of.
  destruct (in_range p_w lo hi), (is_not_None e_d && is_not_None p_d);
    try destruct (py_eq e_d p_d);
    rewrite !both_twice; apply both_ext; intros []; reflexivity.
Qed.

(** ** Comparison of floats *)

Lemma SFcompare_antisym (a b : float) :
  SFcompare b a = option_map CompOpp (SFcompare a b).
Proof.
  destruct a as [sa|sa| |sa ma ea], b as [sb|sb| |sb mb eb]; simpl;
    try reflexivity; try (destruct sa; reflexivity); try (destruct sb; reflexivity);
    try (destruct sa, sb; reflexivity).
  destruct sa, sb; try reflexivity;
    rewrite (Z.compare_antisym ea eb);
    destruct (ea ?= eb)%Z; simpl; try reflexivity;
    rewrite (Pos.compare_cont_antisym ma mb Eq); simpl;
    destruct (Pos.compare_cont Eq ma mb); reflexivity.
Qed.

(** Within [[e, e]] is the same as equal to [e]. *)
Lemma in_point_range (x e : float) : in_range x e e = feqb x e.
Proof.
  unfold in_range, fleb, feqb, SFleb, SFeqb.
  rewrite (SFcompare_antisym e x).
  destruct (SFcompare e x) as [[]|]; reflexivity.
Qed.

Lemma in_range_bounds (x lo hi : float) :
  in_range x lo hi = true <-> fleb lo x = true /\ fleb x hi = true.
Proof. unfold in_range. apply andb_true_iff. Qed.

Lemma acceptable_range_given (e : pyval) (e_w lo hi : float) (rg : pyval) :
  get e "acceptable_range_lb" VNone = Ok rg ->
  acceptable_range e e_w = Ok (lo, hi) ->
  if truthy rg
  then exists a b, unpack2 rg = Ok (a, b) /\ to_float a = Ok lo /\ to_float b = Ok hi
  else lo = e_w /\ hi = e_w.
Proof.
  intros Hg H. unfold acceptable_range in H. rewrite Hg in H. simpl in H.
  unfold py_or in H. destruct (truthy rg).
  - apply bind_Ok in H as ([a b] & Hu & H).
    apply bind_Ok in H as (lo' & Hlo & H).
    apply bind_Ok in H as (hi' & Hhi & H).
    injection H as <- <-. eauto.
  - simpl in H. by injection H as <- <-.
Qed.

(** C1: for an evaluated entry the agreement counters, overall and of the
    user, go up by one exactly when the predicted weight lies in [[lo, hi]],
    both ends included.  The bounds are the two items of
    [acceptable_range_lb] when the expected entry gives them; when the field
    is missing, null or otherwise false the range is the point
    [[e_w, e_w]] and agreement is equality of the two weights. *)
Theorem agreement_iff_in_range (k : ckey) (u e p : pyval) (t t' : tally) :
  record_entry k u e p t = Ok t' ->
  exists e_w p_w lo hi rg,
    weight e = Ok e_w /\ weight p = Ok p_w /\
    get e "acceptable_range_lb" VNone = Ok rg /\
    (forall a b, rg = VList [a; b] -> to_float a = Ok lo /\ to_float b = Ok hi) /\
    (truthy rg = false -> lo = e_w /\ hi = e_w) /\
    (agree (overall t') = S (agree (overall t)) <->
       fleb lo p_w = true /\ fleb p_w hi = true) /\
    (agree (overall t') = agree (overall t) <->
       ~ (fleb lo p_w = true /\ fleb p_w hi = true)) /\
    (agree (user_stats k (per_user t')) = S (agree (user_stats k (per_user t))) <->
       fleb lo p_w = true /\ fleb p_w hi = true) /\
    (agree (user_stats k (per_user t')) = agree (user_stats k (per_user t)) <->
       ~ (fleb lo p_w = true /\ fleb p_w hi = true)) /\
    (truthy rg = false ->
       (agree (overall t') = S (agree (overall t)) <-> feqb p_w e_w = true)).
Proof.
  intros H. apply record_entry_spec in H
    as (e_w & p_w & lo & hi & e_d & p_d & He & Hp & Hr & _ & _ & ->).
  assert (Hg : exists rg, get e "acceptable_range_lb" VNone = Ok rg).
  { unfold acceptable_range in Hr. apply bind_Ok in Hr as (rg & Hg & _). eauto. }
  destruct Hg as [rg Hg].
  pose proof (acceptable_range_given e e_w lo hi rg Hg Hr) as Hgiven.
  exists e_w, p_w, lo, hi, rg. rewrite user_stats_both. simpl.
  rewrite <- in_range_bounds.
  split; [done|]. split; [done|]. split; [done|].
  split.
  { intros a b ->. simpl in Hgiven. destruct Hgiven as (a' & b' & Hu & Hlo & Hhi).
    by injection Hu as <- <-. }
  split.
  { intros Hf. by rewrite Hf in Hgiven. }
  do 4 (split; [destruct (in_range p_w lo hi); split; intros;
                  first [done | lia | exfalso; auto] |]).
  intros Hf. rewrite Hf in Hgiven. destruct Hgiven as [-> ->].
  rewrite <- in_point_range.
  destruct (in_range p_w e_w e_w); split; intros; first [done | lia].
Qed.

(** C4: for an evaluated entry the decision-comparison counters, overall
    and of the user, go up by one exactly when both entries have a decision
    that is not null, and the decision-match counters exactly when, in
    addition, the two decisions are equal.  Whatever the decisions, the
    entry counts in the totals behind the weight agreement. *)
Theorem decision_counters (k : ckey) (u e p : pyval) (t t' : tally) :
  record_entry k u e p t = Ok t' ->
  exists e_d p_d,
    get e "decision" VNone = Ok e_d /\ get p "decision" VNone = Ok p_d /\
    let compared := is_not_None e_d && is_not_None p_d in
    let matched := compared && py_eq e_d p_d in
    decision_total (overall t')
      = (if compared then S (decision_total (overall t))
         else decision_total (overall t)) /\
    decision_total (user_stats k (per_user t'))
      = (if compared then S (decision_total (user_stats k (per_user t)))
         else decision_total (user_stats k (per_user t))) /\
    decision_ok (overall t')
      = (if matched then S (decision_ok (overall t))
         else decision_ok (overall t)) /\
    decision_ok (user_stats k (per_user t'))
      = (if matched then S (decision_ok (user_stats k (per_user t)))
         else decision_ok (user_stats k (per_user t))) /\
    total (overall t') = S (total (overall t)) /\
    total (user_stats k (per_user t')) = S (total (user_stats k (per_user t))) /\
    length (abs_err (overall t')) = S (length (abs_err (overall t))).
Proof.
  intros H. apply record_entry_spec in H
    as (e_w & p_w & lo & hi & e_d & p_d & _ & _ & _ & Hed & Hpd & ->).
  exists e_d, p_d. rewrite user_stats_both. simpl.
  split; [done|]. split; [done|].
  unfold decision_of.
  destruct (is_not_None e_d && is_not_None p_d); simpl;
    [destruct (py_eq e_d p_d)|]; simpl;
    rewrite ?length_app; simpl; repeat split; lia.
Qed.


(** ** The lift matcher *)

Lemma find_in_skip (pre rest : list pyval) (target : pyval) :
  Forall (fun y => exists l, get y "lift" VNone = Ok l /\ py_eq l target = false) pre ->
  find_in (pre ++ rest) target = find_in rest target.
Proof.
  induction 1 as [|y pre (l & Hl & Hne) _ IH]; simpl; [done|].
  rewrite Hl. simpl. by rewrite Hne.
Qed.

(** C6: on a sequence of entries the matcher returns the first entry, in
    the order of the sequence, whose [lift] equals the target, whatever
    follows it (a second entry for the same lift included), and [None] when
    no entry has that lift. *)
Theorem find_by_lift_first_match (target : pyval) :
  (forall pre x post l,
      Forall (fun y => exists l, get y "lift" VNone = Ok l /\ py_eq l target = false) pre ->
      get x "lift" VNone = Ok l -> py_eq l target = true ->
      find_by_lift (VList (pre ++ x :: post)) target = Ok x) /\
  (forall xs,
      Forall (fun y => exists l, get y "lift" VNone = Ok l /\ py_eq l target = false) xs ->
      find_by_lift (VList xs) target = Ok VNone).
Proof.
  split.
  - intros pre x post l Hpre Hl Heq. unfold find_by_lift; simpl.
    rewrite find_in_skip by done. simpl. rewrite Hl. simpl. by rewrite Heq.
  - intros xs Hxs. unfold find_by_lift; simpl.
    rewrite <- (app_nil_r xs). by rewrite find_in_skip.
Qed.

(** ** The predictions index *)

Lemma index_step_ident (m : gmap ident pyval) (r : pyval) :
  index_step m r = ident_of r ≫= fun h => Ok (<[h := r]> m).
Proof.
  unfold index_step, ident_of. destruct (key r) as [k|]; simpl; [|done].
  by destruct (hash_key k).
Qed.

Lemma index_keeps (h : ident) (post : list pyval) :
  forall m m' : gmap ident pyval,
    Forall (fun r => ident_of r ≠ Ok h) post ->
    foldM index_step m post = Ok m' ->
    m' !! h = m !! h.
Proof.
  induction post as [|r post IH]; intros m m' Hpost H; simpl in H.
  - by injection H as <-.
  - inversion Hpost as [|r0 post0 Hr Hpost']; subst.
    apply bind_Ok in H as (m1 & H1 & H).
    rewrite (IH m1 m' Hpost' H).
    rewrite index_step_ident in H1. apply bind_Ok in H1 as (h' & Hh' & H1).
    injection H1 as <-. apply lookup_insert_ne. congruence.
Qed.

(** C5: the index maps an identity key to the last record, in file order,
    that has the key: a later record with the same key replaces an earlier
    one.  A key that no record has is not in the index. *)
Theorem index_last_write_wins (pr : list pyval) (pred : gmap ident pyval) :
  build_index pr = Ok pred ->
  (forall pre r post h,
      pr = pre ++ r :: post ->
      ident_of r = Ok h ->
      Forall (fun r' => ident_of r' ≠ Ok h) post ->
      pred !! h = Some r) /\
  (forall h, Forall (fun r' => ident_of r' ≠ Ok h) pr -> pred !! h = None).
Proof.
  unfold build_index. intros H. split.
  - intros pre r post h -> Hr Hpost.
    rewrite foldM_app in H. apply bind_Ok in H as (m1 & _ & H).
    simpl in H. apply bind_Ok in H as (m2 & H2 & H).
    rewrite (index_keeps h post m2 pred Hpost H).
    rewrite index_step_ident, Hr in H2. simpl in H2. injection H2 as <-.
    apply lookup_insert_eq.
  - intros h Hpr. by rewrite (index_keeps h pr ∅ pred Hpr H).
Qed.

(** ** Records that are skipped *)

(** C2: a dataset record whose expected prescription list is missing, null
    or empty, or whose identity key is not in the predictions index, leaves
    every figure as it was, overall and per user; the dataset scores as it
    does without the record. *)
Theorem skipped_record (pred : gmap ident pyval) (r v : pyval) :
  expected_list r = Ok v ->
  truthy v = false \/ (exists h, ident_of r = Ok h /\ pred !! h = None) ->
  (forall t, step_record pred t r = Ok t) /\
  (forall ds1 ds2, evaluate pred (ds1 ++ r :: ds2) = evaluate pred (ds1 ++ ds2)).
Proof.
  intros Hv Hskip.
  assert (Hstep : forall t, step_record pred t r = Ok t).
  { intros t. unfold step_record. rewrite Hv. simpl.
    destruct (truthy v) eqn:Ht; simpl; [|done].
    destruct Hskip as [|(h & Hh & Hnone)]; [done|].
    unfold ident_of in Hh. apply bind_Ok in Hh as (k & Hk & Hh).
    rewrite Hk, Ok_bind, Hh, Ok_bind. by rewrite Hnone. }
  split; [exact Hstep|].
  intros ds1 ds2. unfold evaluate. rewrite !foldM_app.
  destruct (foldM (step_record pred) init_tally ds1) as [t|]; simpl; [|done].
  by rewrite Hstep.
Qed.


(** ** Main lifts *)

Lemma in_MAIN_str (s : string) :
  in_MAIN (VStr s)
  = Ok (bool_decide (s = "squat" \/ s = "bench" \/ s = "deadlift" \/ s = "ohp")).
Proof.
  unfold in_MAIN, MAIN. f_equal. apply bool_decide_ext.
  rewrite !elem_of_union, !elem_of_singleton. clear. tauto.
Qed.

(** C3, as the code has it: the lift strings scored are exactly ["squat"],
    ["bench"], ["deadlift"] and ["ohp"].  An expected entry with one of them
    goes on to the matcher and, when the matcher finds its counterpart, is
    evaluated; an entry with any other string changes no figure. *)
Theorem main_lift_strings (s : string) :
  (in_MAIN (VStr s) = Ok true <->
     s = "squat" \/ s = "bench" \/ s = "deadlift" \/ s = "ohp") /\
  (forall k u pred_list t e,
      get e "lift" VNone = Ok (VStr s) ->
      in_MAIN (VStr s) = Ok true ->
      step_entry k u pred_list t e
      = find_by_lift pred_list (VStr s) ≫= fun p =>
          if truthy p then record_entry k u e p t else Ok t) /\
  (forall k u pred_list t e,
      get e "lift" VNone = Ok (VStr s) ->
      in_MAIN (VStr s) ≠ Ok true ->
      step_entry k u pred_list t e = Ok t).
Proof.
  split; [|split].
  - rewrite in_MAIN_str. split.
    + intros [= H]. by apply bool_decide_eq_true in H.
    + intros H. f_equal. by apply bool_decide_eq_true.
  - intros k u pred_list t e He Hin. unfold step_entry.
    rewrite He, Ok_bind, Hin, Ok_bind. simpl.
    destruct (find_by_lift pred_list (VStr s)) as [p|]; simpl; [|done].
    by destruct (truthy p).
  - intros k u pred_list t e He Hin. unfold step_entry.
    rewrite He, Ok_bind. rewrite in_MAIN_str in Hin |- *.
    rewrite Ok_bind. by destruct (bool_decide _).
Qed.


(** ** Per-user figures against overall figures *)

Lemma sum_of_update (f : stats -> nat) (d : nat) (k : ckey) (u : pyval)
    (F : stats -> stats) (pu : user_dict) :
  f zero_stats = 0%nat ->
  (forall s, f (F s) = (f s + d)%nat) ->
  sum_of f (map (fun it => it.2.2) (pu_update k u F pu))
  = (sum_of f (map (fun it => it.2.2) pu) + d)%nat.
Proof.
  intros Hz HF. induction pu as [|[k' [u' s]] pu IH]; simpl.
  - rewrite HF, Hz. lia.
  - destruct (decide (k = k')); simpl.
    + rewrite HF. lia.
    + rewrite IH. lia.
Qed.

Lemma samples_of_update (errs : list float) (k : ckey) (u : pyval)
    (F : stats -> stats) (pu : user_dict) :
  (forall s, abs_err (F s) = abs_err s ++ errs) ->
  samples_of (map (fun it => it.2.2) (pu_update k u F pu))
  ≡ₚ samples_of (map (fun it => it.2.2) pu) ++ errs.
Proof.
  intros HF. unfold samples_of.
  induction pu as [|[k' [u' s]] pu IH]; simpl.
  - rewrite HF. simpl. by rewrite app_nil_r.
  - destruct (decide (k = k')); simpl.
    + rewrite HF. rewrite <- !app_assoc. apply Permutation_app_head.
      apply Permutation_app_comm.
    + rewrite IH. by rewrite app_assoc.
Qed.

Lemma consistent_entry (k : ckey) (u : pyval) (err : float) (ok : bool)
    (dec : option bool) (t : tally) :
  consistent t -> consistent (both k u (entry_effect err ok dec) t).
Proof.
  intros (Ht & Ha & Hdt & Hdo & Hs). unfold consistent, users, both; simpl.
  repeat split.
  - rewrite (sum_of_update total 1%nat); [fold (users t); lia | done | intros; simpl; lia].
  - rewrite (sum_of_update agree (if ok then 1 else 0)%nat);
      [fold (users t); destruct ok; lia | done | intros; destruct ok; simpl; lia].
  - rewrite (sum_of_update decision_total
               (if bool_decide (is_Some dec) then 1 else 0)%nat);
      [fold (users t); destruct (bool_decide _); lia | done
      | intros; simpl; destruct (bool_decide _); lia].
  - rewrite (sum_of_update decision_ok (if default false dec then 1 else 0)%nat);
      [fold (users t); destruct (default false dec); lia | done
      | intros; simpl; destruct (default false dec); lia].
  - rewrite (samples_of_update [err]); [|done].
    fold (users t). by rewrite Hs.
Qed.

Lemma populated_entry (k : ckey) (u : pyval) (err : float) (ok : bool)
    (dec : option bool) (pu : user_dict) :
  populated pu -> populated (pu_update k u (entry_effect err ok dec) pu).
Proof.
  unfold populated. induction 1 as [|[k' [u' s]] pu Hs Hpu IH]; simpl.
  - constructor; [simpl; lia | constructor].
  - destruct (decide (k = k')); constructor; simpl in *; auto; lia.
Qed.

Lemma sound_init : sound init_tally.
Proof. repeat split; simpl; constructor. Qed.

Lemma sound_record_entry (k : ckey) (u e p : pyval) (t t' : tally) :
  sound t -> record_entry k u e p t = Ok t' -> sound t'.
Proof.
  intros [Hc Hp] H. apply record_entry_spec in H
    as (e_w & p_w & lo & hi & e_d & p_d & _ & _ & _ & _ & _ & ->).
  split; [by apply consistent_entry | by apply populated_entry].
Qed.

Lemma sound_step_entry (k : ckey) (u pred_list : pyval) (t : tally) (e : pyval)
    (t' : tally) :
  sound t -> step_entry k u pred_list t e = Ok t' -> sound t'.
Proof.
  intros Ht H. unfold step_entry in H.
  apply bind_Ok in H as (l & _ & H).
  apply bind_Ok in H as (m & _ & H).
  destruct m; simpl in H; [|by injection H as <-].
  apply bind_Ok in H as (p & _ & H).
  destruct (truthy p); simpl in H; [|by injection H as <-].
  by eapply sound_record_entry.
Qed.

Lemma sound_step_record (pred : gmap ident pyval) (t : tally) (r : pyval)
    (t' : tally) :
  sound t -> step_record pred t r = Ok t' -> sound t'.
Proof.
  intros Ht H. unfold step_record in H.
  apply bind_Ok in H as (v & _ & H).
  destruct (truthy v); simpl in H; [|by injection H as <-].
  apply bind_Ok in H as (k & _ & H).
  apply bind_Ok in H as (h & _ & H).
  destruct (pred !! h) as [q|]; [|by injection H as <-].
  apply bind_Ok in H as (pl & _ & H).
  apply bind_Ok in H as (es & _ & H).
  eapply foldM_invariant; [|exact Ht|exact H].
  intros s a s'. apply sound_step_entry.
Qed.

Lemma sound_evaluate (pred : gmap ident pyval) (ds : list pyval) (t : tally) :
  evaluate pred ds = Ok t -> sound t.
Proof.
  unfold evaluate. apply foldM_invariant; [|apply sound_init].
  intros s a s'. apply sound_step_record.
Qed.

(** C8: after a dataset is evaluated, the totals of the users add up to the
    overall total; so do their agreement counts, their decision-comparison
    counts and their decision-match counts; and the error samples of the
    users, taken together, are the overall error samples up to order. *)
Theorem per_user_sums_to_overall (pred : gmap ident pyval) (ds : list pyval)
    (t : tally) :
  evaluate pred ds = Ok t ->
  sum_of total (users t) = total (overall t) /\
  sum_of agree (users t) = agree (overall t) /\
  sum_of decision_total (users t) = decision_total (overall t) /\
  sum_of decision_ok (users t) = decision_ok (overall t) /\
  samples_of (users t) ≡ₚ abs_err (overall t).
Proof. intros H. by destruct (sound_evaluate pred ds t H) as [Hc _]. Qed.


(** ** The reporter *)

Lemma rate_zero (a : nat) : rate a 0 = Ok (VInt 0).
Proof. reflexivity. Qed.

Lemma rate_pos (a t : nat) :
  (1 <= t)%nat ->
  rate a t = Ok (VFloat (fdiv (float_of_int (Z.of_nat a)) (float_of_int (Z.of_nat t)))).
Proof.
  intros Ht. unfold rate, truediv_int. destruct t as [|t]; [lia|]. reflexivity.
Qed.

Lemma rate_ok (a t : nat) : exists v, rate a t = Ok v.
Proof.
  destruct t as [|t]; [by exists (VInt 0)|].
  eexists. apply rate_pos. lia.
Qed.

Lemma mean_nil : mean [] = Ok (VFloat nan).
Proof. reflexivity. Qed.

Lemma mean_ok (l : list float) : exists v, mean l = Ok v.
Proof. destruct l as [|x l]; [by exists (VFloat nan)|]. by eexists. Qed.

Lemma user_text_ok (it : ckey * (pyval * stats)) : exists l, user_text it = Ok l.
Proof.
  destruct it as [k [u s]]. unfold user_text.
  destruct (mean_ok (abs_err s)) as [m ->].
  destruct (rate_ok (agree s) (total s)) as [r1 ->].
  destruct (rate_ok (decision_ok s) (decision_total s)) as [r2 ->].
  by eexists.
Qed.

Lemma for_each_user_line (items : user_dict) (w : world) :
  exists w', for_each user_line items w = (w', Done tt).
Proof.
  revert w. induction items as [|it items IH]; intros w; simpl.
  - by eexists.
  - unfold user_line. destruct (user_text_ok it) as [l ->].
    unfold mbind, io_bind; simpl. apply IH.
Qed.

Lemma ckey_lt_raises (a b : ckey) (e : exn) : ckey_lt a b = Raise e -> e = TypeError.
Proof. destruct a, b; simpl; congruence. Qed.

Lemma insert_sorted_raises (x : ckey * (pyval * stats)) (l : user_dict) (e : exn) :
  insert_sorted x l = Raise e -> e = TypeError.
Proof.
  induction l as [|y l IH]; simpl; [done|].
  unfold item_lt. destruct (decide (y.1 = x.1)); simpl; [congruence|].
  destruct (ckey_lt y.1 x.1) as [[]|e'] eqn:Hlt; simpl.
  - destruct (insert_sorted x l); simpl; [done|]. intros [= <-]. by apply IH.
  - done.
  - intros [= <-]. by eapply ckey_lt_raises.
Qed.

Lemma sorted_raises (l : user_dict) (e : exn) : sorted l = Raise e -> e = TypeError.
Proof.
  induction l as [|x l IH]; simpl; [done|].
  destruct (sorted l) as [r|e']; simpl.
  - apply insert_sorted_raises.
  - intros [= <-]. by apply IH.
Qed.

Lemma insert_sorted_perm (x : ckey * (pyval * stats)) (l l' : user_dict) :
  insert_sorted x l = Ok l' -> l' ≡ₚ x :: l.
Proof.
  revert l'. induction l as [|y l IH]; intros l' H; simpl in H.
  - by injection H as <-.
  - apply bind_Ok in H as (b & _ & H). destruct b.
    + apply bind_Ok in H as (r & Hr & H). injection H as <-.
      rewrite (IH r Hr). apply Permutation_swap.
    + by injection H as <-.
Qed.

Lemma sorted_perm (l l' : user_dict) : sorted l = Ok l' -> l' ≡ₚ l.
Proof.
  revert l'. induction l as [|x l IH]; intros l' H; simpl in H.
  - by injection H as <-.
  - apply bind_Ok in H as (r & Hr & H).
    rewrite (insert_sorted_perm x r l' H). by rewrite (IH r Hr).
Qed.

Lemma report_outcome (t : tally) (w : world) :
  (report t w).2 = Done tt \/ (report t w).2 = Uncaught TypeError.
Proof.
  unfold report.
  destruct (mean_ok (abs_err (overall t))) as [m ->].
  destruct (rate_ok (agree (overall t)) (total (overall t))) as [r1 ->].
  destruct (rate_ok (decision_ok (overall t)) (decision_total (overall t))) as [r2 ->].
  unfold mbind, io_bind; simpl.
  destruct (sorted (per_user t)) as [items|e] eqn:Hs; simpl.
  - match goal with |- context [for_each user_line items ?w0] =>
      destruct (for_each_user_line items w0) as [w' ->] end.
    by left.
  - right. by rewrite (sorted_raises _ _ Hs).
Qed.

(** C7: the reporter does not divide by zero.  A rate over a zero total is
    the integer [0], the mean of no sample is not-a-number, no rate and no
    mean raises, and so the line of a user and the report as a whole never
    end in [ZeroDivisionError]; with nothing evaluated the report shows
    [0/0 = 0], a mean error of not-a-number and a decision accuracy of
    [0]. *)
Theorem no_division_by_zero :
  (forall a, rate a 0 = Ok (VInt 0)) /\
  mean [] = Ok (VFloat nan) /\
  (forall a t, exists v, rate a t = Ok v) /\
  (forall l, exists v, mean l = Ok v) /\
  (forall k u a d,
      user_text (k, (u, {| total := 0; agree := a; abs_err := [];
                           decision_ok := d; decision_total := 0 |}))
      = Ok [Lit "  "; Fmt u; Lit ": agree "; Fmt2f (VInt 0); Lit ", MAE ";
            Fmt2f (VFloat nan); Lit " lb, decisionAcc "; Fmt2f (VInt 0);
            Lit ", n="; Fmt (VInt 0)]) /\
  (forall it, exists l, user_text it = Ok l) /\
  report init_tally start
  = ({| stdout :=
          [[Lit "Main lift load agreement: "; Fmt (VInt 0); Lit "/";
            Fmt (VInt 0); Lit " = "; Fmt2f (VInt 0)];
           [Lit "Main lift MAE (point label): "; Fmt2f (VFloat nan); Lit " lb"];
           [Lit "Decision accuracy: "; Fmt (VInt 0); Lit "/"; Fmt (VInt 0);
            Lit " = "; Fmt2f (VInt 0)];
           [Lit "Per-user:"]];
        opened := [] |}, Done tt) /\
  (forall t w, (report t w).2 ≠ Uncaught ZeroDivisionError).
Proof.
  split; [exact rate_zero|]. split; [exact mean_nil|].
  split; [exact rate_ok|]. split; [exact mean_ok|].
  split; [reflexivity|]. split; [exact user_text_ok|].
  split; [reflexivity|].
  intros t w. destruct (report_outcome t w) as [-> | ->]; discriminate.
Qed.

(** C10: after a dataset is evaluated every user in the per-user aggregate
    has a total of at least one.  So on each per-user line, whose text is
    that of an item of the sorted aggregate, [n] is at least one and the
    agreement rate is the quotient, not the fallback [0]. *)
Theorem per_user_total_positive (pred : gmap ident pyval) (ds : list pyval)
    (t : tally) :
  evaluate pred ds = Ok t ->
  Forall (fun it => (1 <= total it.2.2)%nat) (per_user t) /\
  (forall items,
      sorted (per_user t) = Ok items ->
      Forall (fun it =>
                let s := it.2.2 in
                (1 <= total s)%nat /\
                rate (agree s) (total s)
                = Ok (VFloat (fdiv (float_of_int (Z.of_nat (agree s)))
                                   (float_of_int (Z.of_nat (total s))))) /\
                exists user_mae dec_rate,
                  user_text it
                  = Ok [Lit "  "; Fmt it.2.1; Lit ": agree ";
                        Fmt2f (VFloat (fdiv (float_of_int (Z.of_nat (agree s)))
                                            (float_of_int (Z.of_nat (total s)))));
                        Lit ", MAE "; Fmt2f user_mae; Lit " lb, decisionAcc ";
                        Fmt2f dec_rate; Lit ", n="; Fmt (int (total s))])
             items).
Proof.
  intros H. destruct (sound_evaluate pred ds t H) as [_ Hp].
  split; [exact Hp|].
  intros items Hs. apply sorted_perm in Hs.
  unfold populated in Hp. rewrite <- Hs in Hp.
  eapply Forall_impl; [|exact Hp].
  intros [k [u s]] Hpos; simpl in *.
  split; [done|]. split; [by apply rate_pos|].
  destruct (mean_ok (abs_err s)) as [m Hm].
  destruct (rate_ok (decision_ok s) (decision_total s)) as [r2 Hr2].
  exists m, r2. rewrite Hm, Ok_bind, (rate_pos _ _ Hpos), Ok_bind, Hr2. reflexivity.
Qed.


(** C9: with any number of command-line words other than three (the script
    name and two positional arguments) the program prints the usage message
    on standard output and exits with status 2; it opens no file and prints
    nothing else. *)
Theorem usage_error (argv : list string) :
  length argv ≠ 3%nat ->
  main argv start = ({| stdout := [usage]; opened := [] |}, SystemExit 2) /\
  exit_code (main argv start).2 = 2.
Proof.
  intros Hlen.
  assert (E : main argv start = ({| stdout := [usage]; opened := [] |}, SystemExit 2)).
  { unfold main, mbind, io_bind. destruct (decide (length argv ≠ 3%nat)); [|done].
    reflexivity. }
  split; [exact E|]. by rewrite E.
Qed.

(** ** The loader *)

(** X1: the loader returns the decoded lines that are not blank, in file
    order; blank lines are skipped wherever they stand. *)
Theorem parse_lines_decodes_text (ls : list string) (vs : list pyval) :
  parse_lines ls = Ok vs <-> mapM json_loads (filter has_text ls) = Some vs.
Proof.
  revert vs. induction ls as [|l ls IH]; intros vs; simpl.
  - change (Ok [] = Ok vs <-> Some [] = Some vs). split; intros [= <-]; reflexivity.
  - destruct (blank l) eqn:Hb.
    + rewrite filter_cons_False by (unfold has_text; congruence). apply IH.
    + rewrite filter_cons_True by exact Hb.
      change (mapM json_loads (l :: filter has_text ls))
        with (json_loads l ≫= fun v =>
              mapM json_loads (filter has_text ls) ≫= fun out => Some (v :: out)).
      destruct (json_loads l) as [v|]; simpl; [|split; discriminate].
      destruct (parse_lines ls) as [out|e]; simpl.
      * rewrite (proj1 (IH out) eq_refl). simpl. split; intros [= <-]; reflexivity.
      * destruct (mapM json_loads (filter has_text ls)) as [out|] eqn:Hm; simpl.
        -- discriminate (proj2 (IH out) eq_refl).
        -- split; discriminate.
Qed.

Lemma parse_lines_raise_iff (ls : list string) (e : exn) :
  parse_lines ls = Raise e <->
  e = JSONDecodeError /\ exists l, l ∈ ls /\ blank l = false /\ json_loads l = None.
Proof.
  revert e. induction ls as [|l ls IH]; intros e; simpl.
  - split; [discriminate|]. intros (_ & l & Hl & _). by apply elem_of_nil in Hl.
  - destruct (blank l) eqn:Hb.
    + rewrite IH. split; intros (He & l' & Hl' & Hb' & Hd); (split; [done|]).
      * exists l'. split; [by right | done].
      * exists l'. apply elem_of_cons in Hl' as [-> | Hl']; [congruence | done].
    + destruct (json_loads l) as [v|] eqn:Hd.
      * destruct (parse_lines ls) as [out|e'] eqn:Hp; simpl.
        -- split; [discriminate|]. intros (He & l' & Hl' & Hb' & Hd').
           apply elem_of_cons in Hl' as [-> | Hl']; [congruence|].
           discriminate
             (proj2 (IH e) (conj He (ex_intro _ l' (conj Hl' (conj Hb' Hd'))))).
        -- split.
           ++ intros [= <-]. destruct (proj1 (IH e') eq_refl) as (He & l' & Hl' & Hr).
              split; [done|]. exists l'. split; [by right | done].
           ++ intros (-> & _). destruct (proj1 (IH e') eq_refl) as (-> & _). done.
      * split.
        -- intros [= <-]. split; [done|]. exists l. split; [by left | done].
        -- by intros (-> & _).
Qed.

(** X2: the loader fails exactly when some line that is not blank does not
    decode, and then with the decoder's error: there is no partial result
    and no line is passed over. *)
Theorem parse_lines_fails_on_bad_line (ls : list string) (e : exn) :
  parse_lines ls = Raise e <->
  e = JSONDecodeError /\ exists l, l ∈ ls /\ blank l = false /\ json_loads l = None.
Proof. apply parse_lines_raise_iff. Qed.

(** ** Runs of the program *)

Lemma load_jsonl_run (path : string) (w : world) :
  load_jsonl path w
  = ({| stdout := stdout w; opened := opened w ++ [path] |}, loaded path).
Proof.
  unfold load_jsonl, loaded, open_read, mbind, io_bind, lift.
  destruct (fs path) as [ls|]; [|done]. by destruct (parse_lines ls).
Qed.




Lemma main_run (a0 a1 a2 : string) :
  main [a0; a1; a2] start
  = match loaded a1 with
    | Done ds =>
        match loaded a2 with
        | Done pr =>
            match build_index pr with
            | Ok pred =>
                match evaluate pred ds with
                | Ok t => report t (after [] [a1; a2])
                | Raise e => (after [] [a1; a2], Uncaught e)
                end
            | Raise e => (after [] [a1; a2], Uncaught e)
            end
        | Uncaught e => (after [] [a1; a2], Uncaught e)
        | SystemExit c => (after [] [a1; a2], SystemExit c)
        end
    | Uncaught e => (after [] [a1], Uncaught e)
    | SystemExit c => (after [] [a1], SystemExit c)
    end.
Proof.
  unfold main, mbind, io_bind. simpl.
  rewrite load_jsonl_run. simpl.
  destruct (loaded a1) as [ds|e|c]; try reflexivity.
  rewrite load_jsonl_run. simpl.
  destruct (loaded a2) as [pr|e|c]; try reflexivity.
  unfold lift.
  destruct (build_index pr) as [pred|e]; try reflexivity.
  destruct (evaluate pred ds) as [t|e]; reflexivity.
Qed.


(** X3: when the dataset file cannot be opened, or holds a line that does
    not decode, the run ends in that error with status 1: nothing is
    printed and the predictions file is not opened. *)
Theorem dataset_failure_stops_run (a0 a1 a2 : string) :
  (fs a1 = None ->
   main [a0; a1; a2] start = (after [] [a1], Uncaught OSError)) /\
  (forall ls l,
      fs a1 = Some ls -> l ∈ ls -> blank l = false -> json_loads l = None ->
      main [a0; a1; a2] start = (after [] [a1], Uncaught JSONDecodeError)).
Proof.
  split.
  - intros Hfs. rewrite main_run. unfold loaded. by rewrite Hfs.
  - intros ls l Hfs Hl Hb Hd. rewrite main_run. unfold loaded at 1. rewrite Hfs.
    destruct (parse_lines ls) as [vs|e] eqn:Hp.
    + assert (Ok vs = Raise JSONDecodeError) as [=].
      rewrite <- Hp. apply parse_lines_raise_iff. eauto.
    + by destruct (proj1 (parse_lines_raise_iff ls e) Hp) as [-> _].
Qed.


(** ** More on the lift matcher and the index *)

(** X5: what the matcher returns is either [None] or an item of the
    sequence whose [lift] equals the target. *)
Theorem find_by_lift_sound (lst target p : pyval) :
  find_by_lift lst target = Ok p ->
  p = VNone \/
  exists xs l,
    py_iter lst = Ok xs /\ p ∈ xs /\
    get p "lift" VNone = Ok l /\ py_eq l target = true.
Proof.
  unfold find_by_lift. intros H. apply bind_Ok in H as (xs & Hxs & H).
  assert (Hin : p = VNone \/
                exists l, p ∈ xs /\ get p "lift" VNone = Ok l /\ py_eq l target = true).
  { clear Hxs. induction xs as [|x xs IH]; simpl in H.
    - left. by injection H as <-.
    - apply bind_Ok in H as (l & Hl & H). destruct (py_eq l target) eqn:Heq.
      + injection H as <-. right. exists l. split; [by left | done].
      + destruct (IH H) as [-> | (l' & Hp & Hr)]; [by left|].
        right. exists l'. split; [by right | done]. }
  destruct Hin as [-> | (l & Hp & Hl & Heq)]; [by left|].
  right. by exists xs, l.
Qed.

(** X6: an expected main-lift entry without a counterpart among the
    predicted entries changes no figure: it is passed over, not counted as a
    disagreement.  So is every such entry when the prediction has no
    prescription list at all. *)
Theorem unmatched_entry_skipped (k : ckey) (u e lift : pyval) (xs : list pyval)
    (t : tally) :
  get e "lift" VNone = Ok lift ->
  in_MAIN lift = Ok true ->
  Forall (fun y => exists l, get y "lift" VNone = Ok l /\ py_eq l lift = false) xs ->
  step_entry k u (VList xs) t e = Ok t.
Proof.
  intros He Hin Hxs. unfold step_entry. rewrite He, Ok_bind, Hin, Ok_bind. simpl.
  unfold find_by_lift. simpl. rewrite <- (app_nil_r xs).
  by rewrite (find_in_skip xs [] lift Hxs).
Qed.

(** X7: a prediction whose prescription list is null, a number or a
    boolean makes the first main-lift entry looked up in it raise
    [TypeError]: the default [[]] only stands in for a missing key. *)
Theorem null_prescription_raises (k : ckey) (u e lift pl : pyval) (t : tally) :
  get e "lift" VNone = Ok lift ->
  in_MAIN lift = Ok true ->
  py_iter pl = Raise TypeError ->
  step_entry k u pl t e = Raise TypeError.
Proof.
  intros He Hin Hpl. unfold step_entry. rewrite He, Ok_bind, Hin, Ok_bind. simpl.
  unfold find_by_lift. by rewrite Hpl.
Qed.

Lemma index_fold_sound (pr : list pyval) :
  forall (m m' : gmap ident pyval) (h : ident) (r : pyval),
    foldM index_step m pr = Ok m' ->
    m' !! h = Some r ->
    m !! h = Some r \/ (r ∈ pr /\ ident_of r = Ok h).
Proof.
  induction pr as [|r0 pr IH]; intros m m' h r H Hl; simpl in H.
  - left. by injection H as <-.
  - apply bind_Ok in H as (m1 & H1 & H).
    rewrite index_step_ident in H1. apply bind_Ok in H1 as (h0 & Hh0 & H1).
    injection H1 as <-.
    destruct (IH _ _ h r H Hl) as [Hm | [Hin Hid]].
    + destruct (decide (h0 = h)) as [-> | Hne].
      * rewrite lookup_insert_eq in Hm. injection Hm as <-.
        right. split; [by left | done].
      * rewrite lookup_insert_ne in Hm by done. by left.
    + right. split; [by right | done].
Qed.

(** X8: whatever the index returns for a key is one of the prediction
    records, and that record has the key. *)
Theorem index_lookup_sound (pr : list pyval) (pred : gmap ident pyval)
    (h : ident) (r : pyval) :
  build_index pr = Ok pred ->
  pred !! h = Some r ->
  r ∈ pr /\ ident_of r = Ok h.
Proof.
  intros H Hl. destruct (index_fold_sound pr ∅ pred h r H Hl) as [He | Hr]; [|done].
  by rewrite lookup_empty in He.
Qed.

(** X9: the index is built exactly when every prediction record has its
    three identity fields and all of them are hashable; one record without
    them fails the run, matched by the dataset or not. *)
Theorem index_needs_every_key (pr : list pyval) :
  (exists pred, build_index pr = Ok pred) <->
  Forall (fun r => exists h, ident_of r = Ok h) pr.
Proof.
  unfold build_index. generalize (∅ : gmap ident pyval).
  induction pr as [|r pr IH]; intros m; simpl.
  - split; [constructor | by exists m].
  - rewrite index_step_ident. split.
    + intros (pred & H). apply bind_Ok in H as (m1 & H1 & H).
      apply bind_Ok in H1 as (h & Hh & _).
      constructor; [by exists h|]. apply (IH m1). by exists pred.
    + intros HF. inversion HF as [|r0 pr0 (h & Hh) Hpr]; subst.
      rewrite Hh, !Ok_bind. by apply IH.
Qed.


(** ** What the evaluation keeps *)

Lemma evaluate_invariant (I : tally -> Prop) :
  I init_tally ->
  (forall k u err ok dec t, I t -> I (both k u (entry_effect (fabs err) ok dec) t)) ->
  forall pred ds t, evaluate pred ds = Ok t -> I t.
Proof.
  intros Hinit Hstep pred ds t. unfold evaluate.
  apply foldM_invariant; [|exact Hinit].
  intros s r s' Hs H. unfold step_record in H.
  apply bind_Ok in H as (v & _ & H).
  destruct (truthy v); simpl in H; [|by injection H as <-].
  apply bind_Ok in H as (k & _ & H).
  apply bind_Ok in H as (h & _ & H).
  destruct (pred !! h) as [q|]; [|by injection H as <-].
  apply bind_Ok in H as (pl & _ & H).
  apply bind_Ok in H as (es & _ & H).
  eapply foldM_invariant; [|exact Hs|exact H].
  clear Hs H. intros s0 e s1 Hs H. unfold step_entry in H.
  apply bind_Ok in H as (l & _ & H).
  apply bind_Ok in H as (m & _ & H).
  destruct m; simpl in H; [|by injection H as <-].
  apply bind_Ok in H as (p & _ & H).
  destruct (truthy p); simpl in H; [|by injection H as <-].
  apply record_entry_spec in H
    as (e_w & p_w & lo & hi & e_d & p_d & _ & _ & _ & _ & _ & ->).
  by apply Hstep.
Qed.

Lemma Forall_pu_update (P : stats -> Prop) (k : ckey) (u : pyval)
    (F : stats -> stats) (pu : user_dict) :
  P zero_stats -> (forall s, P s -> P (F s)) ->
  Forall (fun it => P it.2.2) pu -> Forall (fun it => P it.2.2) (pu_update k u F pu).
Proof.
  intros Hz HF. induction 1 as [|[k' [u' s]] pu Hs Hpu IH]; simpl.
  - constructor; [simpl; auto | constructor].
  - destruct (decide (k = k')); constructor; simpl in *; auto.
Qed.

Lemma stats_invariant (P : stats -> Prop) :
  P zero_stats ->
  (forall err ok dec s, P s -> P (entry_effect (fabs err) ok dec s)) ->
  forall pred ds t,
    evaluate pred ds = Ok t ->
    P (overall t) /\ Forall (fun it => P it.2.2) (per_user t).
Proof.
  intros Hz HF.
  apply (evaluate_invariant
           (fun t => P (overall t) /\ Forall (fun it => P it.2.2) (per_user t))).
  - split; [exact Hz | constructor].
  - intros k u err ok dec t [Ho Hu]. split; simpl; [by apply HF|].
    apply Forall_pu_update; auto.
Qed.

(** X10: after a dataset is evaluated, overall and for every user, the
    agreements are at most the total, the decision matches at most the
    decision comparisons, these at most the total, and there is exactly one
    error sample per evaluated entry. *)
Theorem counters_bounded (pred : gmap ident pyval) (ds : list pyval) (t : tally) :
  evaluate pred ds = Ok t ->
  bounded (overall t) /\ Forall (fun it => bounded it.2.2) (per_user t).
Proof.
  apply (stats_invariant bounded).
  - unfold bounded; simpl. lia.
  - intros err ok dec s (Ha & Hd & Hdt & Hl). unfold bounded; simpl.
    rewrite length_app; simpl.
    destruct ok, dec as [[]|]; simpl; lia.
Qed.

Lemma fabs_not_negative (x : float) : not_negative (fabs x).
Proof. unfold not_negative, SFltb. by destruct x as [s|s| |s m e]. Qed.

(** X11: no error sample is below zero, overall or for any user: a sample
    is a positive number, a zero, an infinity or not-a-number. *)
Theorem samples_not_negative (pred : gmap ident pyval) (ds : list pyval) (t : tally) :
  evaluate pred ds = Ok t ->
  Forall not_negative (abs_err (overall t)) /\
  Forall (fun it => Forall not_negative (abs_err it.2.2)) (per_user t).
Proof.
  apply (stats_invariant (fun s => Forall not_negative (abs_err s))).
  - constructor.
  - intros err ok dec s Hs. simpl. apply Forall_app. split; [done|].
    constructor; [apply fabs_not_negative | constructor].
Qed.

Lemma user_keys_update (k : ckey) (u : pyval) (F : stats -> stats) (pu : user_dict) :
  user_keys (pu_update k u F pu)
  = if decide (k ∈ user_keys pu) then user_keys pu else user_keys pu ++ [k].
Proof.
  unfold user_keys. induction pu as [|[k' [u' s]] pu IH]; [reflexivity|].
  cbn [pu_update]. destruct (decide (k = k')) as [-> | Hne]; cbn [map fst].
  - destruct (decide (k' ∈ k' :: map fst pu)) as [Hin | Hin]; [reflexivity|].
    destruct Hin. apply elem_of_cons. by left.
  - rewrite IH.
    destruct (decide (k ∈ map fst pu)) as [Hin | Hin],
             (decide (k ∈ k' :: map fst pu)) as [Hin' | Hin']; try reflexivity.
    + destruct Hin'. apply elem_of_cons. by right.
    + apply elem_of_cons in Hin' as [? | ?]; done.
Qed.

Lemma NoDup_pu_update (k : ckey) (u : pyval) (F : stats -> stats) (pu : user_dict) :
  NoDup (user_keys pu) -> NoDup (user_keys (pu_update k u F pu)).
Proof.
  intros Hnd. rewrite user_keys_update. destruct (decide (k ∈ user_keys pu)); [done|].
  apply list.NoDup_app. split; [done|]. split.
  - intros x Hx Hk. apply list_elem_of_singleton in Hk. by subst.
  - apply list.NoDup_singleton.
Qed.

Lemma user_keys_NoDup (pred : gmap ident pyval) (ds : list pyval) (t : tally) :
  evaluate pred ds = Ok t -> NoDup (user_keys (per_user t)).
Proof.
  apply (evaluate_invariant (fun t => NoDup (user_keys (per_user t)))).
  - constructor.
  - intros k u err ok dec t0 Ht. simpl. by apply NoDup_pu_update.
Qed.

(** X12: the per-user aggregate has one entry per user: no two entries
    have the same key, so no user is reported on two lines. *)
Theorem one_entry_per_user (pred : gmap ident pyval) (ds : list pyval) (t : tally) :
  evaluate pred ds = Ok t -> NoDup (user_keys (per_user t)).
Proof. apply user_keys_NoDup. Qed.


(** ** One record at a time *)

Lemma step_entry_cases (k : ckey) (u pl : pyval) (t : tally) (e : pyval) (t' : tally) :
  step_entry k u pl t e = Ok t' ->
  t' = t \/ exists err ok dec, t' = both k u (entry_effect err ok dec) t.
Proof.
  intros H. unfold step_entry in H.
  apply bind_Ok in H as (l & _ & H).
  apply bind_Ok in H as (m & _ & H).
  destruct m; simpl in H; [|left; by injection H as <-].
  apply bind_Ok in H as (p & _ & H).
  destruct (truthy p); simpl in H; [|left; by injection H as <-].
  apply record_entry_spec in H
    as (e_w & p_w & lo & hi & e_d & p_d & _ & _ & _ & _ & _ & ->).
  right. eauto.
Qed.

Lemma step_record_cases (pred : gmap ident pyval) (t : tally) (r : pyval) (t' : tally) :
  step_record pred t r = Ok t' ->
  t' = t \/
  exists v k h q pl es,
    expected_list r = Ok v /\ key r = Ok k /\ hash_key k = Ok h /\
    pred !! h = Some q /\ py_iter v = Ok es /\
    foldM (step_entry h.1.1 k.1.1 pl) t es = Ok t'.
Proof.
  intros H. unfold step_record in H.
  apply bind_Ok in H as (v & Hv & H).
  destruct (truthy v); simpl in H; [|left; by injection H as <-].
  apply bind_Ok in H as (k & Hk & H).
  apply bind_Ok in H as (h & Hh & H).
  destruct (pred !! h) as [q|] eqn:Hq; [|left; by injection H as <-].
  apply bind_Ok in H as (pl & _ & H).
  apply bind_Ok in H as (es & Hes & H).
  right. exists v, k, h, q, pl, es. by repeat split.
Qed.

(** X13: a dataset record changes the figures of its own user only: the
    entry of every other user in the per-user aggregate, present or not, is
    as it was. *)
Theorem other_users_untouched (pred : gmap ident pyval) (t : tally) (r : pyval)
    (t' : tally) (k' : ckey) :
  step_record pred t r = Ok t' ->
  (forall h, ident_of r = Ok h -> k' ≠ h.1.1) ->
  pu_lookup k' (per_user t') = pu_lookup k' (per_user t).
Proof.
  intros H Hne. apply step_record_cases in H
    as [-> | (v & k & h & q & pl & es & _ & Hk & Hh & _ & _ & H)]; [done|].
  assert (Hk' : k' ≠ h.1.1).
  { apply Hne. unfold ident_of. by rewrite Hk, Ok_bind. }
  revert H.
  apply (foldM_invariant
           (fun s => pu_lookup k' (per_user s) = pu_lookup k' (per_user t)));
    [|done].
  intros s e s' Hs He.
  apply step_entry_cases in He as [-> | (err & ok & dec & ->)]; [done|].
  simpl. by rewrite pu_lookup_update_ne.
Qed.

Lemma step_entries_total (k : ckey) (u pl : pyval) (es : list pyval) :
  forall t t',
    foldM (step_entry k u pl) t es = Ok t' ->
    (total (overall t) <= total (overall t') <= total (overall t) + length es)%nat.
Proof.
  induction es as [|e es IH]; intros t t' H; simpl in H.
  - injection H as <-. simpl. lia.
  - apply bind_Ok in H as (t1 & H1 & H). apply IH in H.
    apply step_entry_cases in H1 as [-> | (err & ok & dec & ->)]; simpl in *; lia.
Qed.

(** X14: a record adds at most as many evaluated entries as its expected
    list has items, and never takes any away. *)
Theorem record_adds_at_most_its_entries (pred : gmap ident pyval) (t : tally)
    (r : pyval) (t' : tally) (v : pyval) (es : list pyval) :
  step_record pred t r = Ok t' ->
  expected_list r = Ok v ->
  py_iter v = Ok es ->
  (total (overall t) <= total (overall t') <= total (overall t) + length es)%nat.
Proof.
  intros H Hv Hes. apply step_record_cases in H
    as [-> | (v' & k & h & q & pl & es' & Hv' & _ & _ & _ & Hes' & H)]; [lia|].
  rewrite Hv in Hv'. injection Hv' as <-.
  rewrite Hes in Hes'. injection Hes' as <-.
  by apply step_entries_total in H.
Qed.

(** ** Weights and ranges at the edges *)

Lemma record_entry_run (k : ckey) (u e p : pyval) (t : tally)
    (e_w p_w lo hi : float) (e_d p_d : pyval) :
  weight e = Ok e_w -> weight p = Ok p_w ->
  acceptable_range e e_w = Ok (lo, hi) ->
  get e "decision" VNone = Ok e_d -> get p "decision" VNone = Ok p_d ->
  record_entry k u e p t
  = Ok (both k u (entry_effect (fabs (fsub e_w p_w)) (in_range p_w lo hi)
                               (decision_of e_d p_d)) t).
Proof.
  intros He Hp Hr Hed Hpd.
  destruct (record_entry k u e p t) as [t'|x] eqn:H.
  - apply record_entry_spec in H
      as (e_w' & p_w' & lo' & hi' & e_d' & p_d' & He' & Hp' & Hr' & Hed' & Hpd' & ->).
    congruence.
  - unfold record_entry in H. rewrite He, Ok_bind, Hp, Ok_bind, Hr, Ok_bind in H.
    rewrite Hed, Ok_bind, Hpd, Ok_bind in H. discriminate.
Qed.

Lemma weight_default (x v : pyval) :
  get x "prescribed_weight_lb" VNone = Ok v -> truthy v = false ->
  weight x = Ok (S754_zero false).
Proof.
  intros Hg Hv. unfold weight. rewrite Hg, Ok_bind. unfold py_or. by rewrite Hv.
Qed.

(** X15: a weight that is missing, null, zero or otherwise false counts as
    [0.0].  So an expected and a predicted entry that both lack a weight,
    with no range given, are scored as an agreement with error [+0.0]. *)
Theorem missing_weights_agree (k : ckey) (u e p : pyval) (t : tally)
    (ew pw rg e_d p_d : pyval) :
  get e "prescribed_weight_lb" VNone = Ok ew -> truthy ew = false ->
  get p "prescribed_weight_lb" VNone = Ok pw -> truthy pw = false ->
  get e "acceptable_range_lb" VNone = Ok rg -> truthy rg = false ->
  get e "decision" VNone = Ok e_d -> get p "decision" VNone = Ok p_d ->
  record_entry k u e p t
  = Ok (both k u (entry_effect (S754_zero false) true (decision_of e_d p_d)) t).
Proof.
  intros Hew Hewf Hpw Hpwf Hrg Hrgf Hed Hpd.
  rewrite (record_entry_run k u e p t (S754_zero false) (S754_zero false)
             (S754_zero false) (S754_zero false) e_d p_d);
    [reflexivity | by eapply weight_default | by eapply weight_default | | done | done].
  unfold acceptable_range. rewrite Hrg, Ok_bind. unfold py_or. by rewrite Hrgf.
Qed.

(** X16: a range list with one item, or with more than two, makes the
    evaluation of the entry raise [ValueError]; nothing is clamped or
    padded. *)
Theorem malformed_range_raises (k : ckey) (u e p : pyval) (t : tally)
    (e_w p_w : float) (l : list pyval) :
  weight e = Ok e_w -> weight p = Ok p_w ->
  get e "acceptable_range_lb" VNone = Ok (VList l) ->
  l ≠ [] -> length l ≠ 2%nat ->
  record_entry k u e p t = Raise ValueError.
Proof.
  intros He Hp Hrg Hnil Hlen. unfold record_entry.
  rewrite He, Ok_bind, Hp, Ok_bind. unfold acceptable_range.
  rewrite Hrg, Ok_bind. unfold py_or.
  destruct l as [|a [|b [|c l]]]; simpl in *; try done.
Qed.


(** ** The range test *)

Lemma SFleb_trans (a b c : float) :
  SFleb a b = true -> SFleb b c = true -> SFleb a c = true.
Proof.
  unfold SFleb.
  destruct a as [sa|sa| |sa ma ea], b as [sb|sb| |sb mb eb], c as [sc|sc| |sc mc ec];
    simpl;
    repeat match goal with s : bool |- _ => destruct s end;
    simpl; try discriminate; try reflexivity;
    change (Pos.compare_cont Eq) with Pos.compare;
    repeat match goal with
           | |- context [Z.compare ?x ?y] => destruct (Z.compare_spec x y); subst
           | |- context [Pos.compare ?x ?y] => destruct (Pos.compare_spec x y); subst
           end;
    simpl; try discriminate; try reflexivity; intros; lia.
Qed.

Lemma SFleb_refl (a : float) : a ≠ S754_nan -> SFleb a a = true.
Proof.
  unfold SFleb. destruct a as [s|s| |s m e]; simpl; try done.
  - by destruct s.
  - intros _. rewrite Z.compare_refl.
    change (Pos.compare_cont Eq m m) with (Pos.compare m m).
    rewrite Pos.compare_refl. by destruct s.
Qed.

Lemma SFleb_not_nan (a b : float) :
  SFleb a b = true -> a ≠ S754_nan /\ b ≠ S754_nan.
Proof. unfold SFleb. by destruct a, b. Qed.

(** X17: nothing is in an empty range, not-a-number is in no range and no
    range has it as a bound, and the two bounds of a range that is not
    empty are in it. *)
Theorem in_range_edges (x lo hi : float) :
  (in_range x lo hi = true ->
   fleb lo hi = true /\ x ≠ nan /\ lo ≠ nan /\ hi ≠ nan) /\
  (fleb lo hi = true ->
   in_range lo lo hi = true /\ in_range hi lo hi = true).
Proof.
  unfold in_range, fleb, nan. split.
  - intros H. apply andb_true_iff in H as [H1 H2].
    split; [by eapply SFleb_trans|].
    destruct (SFleb_not_nan _ _ H1), (SFleb_not_nan _ _ H2). done.
  - intros H. destruct (SFleb_not_nan _ _ H) as [Hlo Hhi].
    rewrite H, !SFleb_refl by done. done.
Qed.


(** ** Sorting the users *)
















(** ** Scoring one dataset after another *)

Lemma add_stats_zero (o : stats) : add_stats o zero_stats = o.
Proof.
  destruct o. unfold add_stats; simpl. rewrite app_nil_r. f_equal; lia.
Qed.

Lemma entry_effect_add (err : float) (ok : bool) (dec : option bool) (o x : stats) :
  entry_effect err ok dec (add_stats o x) = add_stats o (entry_effect err ok dec x).
Proof.
  unfold entry_effect, add_stats; simpl. rewrite app_assoc.
  destruct ok, (default false dec), (bool_decide (is_Some dec)); f_equal; lia.
Qed.

Lemma user_stats_update (k k' : ckey) (u : pyval) (F : stats -> stats) (pu : user_dict) :
  user_stats k' (pu_update k u F pu)
  = if decide (k' = k) then F (user_stats k pu) else user_stats k' pu.
Proof.
  unfold user_stats at 1. destruct (decide (k' = k)) as [-> | Hne].
  - by rewrite pu_lookup_update.
  - by rewrite pu_lookup_update_ne.
Qed.

Lemma shifted_both (o : stats) (b : ckey -> stats) (t s : tally)
    (k : ckey) (u : pyval) (err : float) (ok : bool) (dec : option bool) :
  shifted o b t s ->
  shifted o b (both k u (entry_effect err ok dec) t) (both k u (entry_effect err ok dec) s).
Proof.
  intros [Ho Hu]. split; simpl.
  - by rewrite Ho, entry_effect_add.
  - intros k'. rewrite !user_stats_update.
    destruct (decide (k' = k)) as [-> | Hne]; [|apply Hu].
    by rewrite Hu, entry_effect_add.
Qed.

Lemma step_entry_shift (o : stats) (b : ckey -> stats) (k : ckey) (u pl : pyval)
    (t : tally) (e : pyval) (t' s : tally) :
  step_entry k u pl t e = Ok t' -> shifted o b t s ->
  exists s', step_entry k u pl s e = Ok s' /\ shifted o b t' s'.
Proof.
  intros H Hsh. unfold step_entry in *.
  destruct (get e "lift" VNone) as [l|]; [|discriminate]. rewrite Ok_bind in *.
  destruct (in_MAIN l) as [m|]; [|discriminate]. rewrite Ok_bind in *.
  destruct m; simpl in *; [|injection H as <-; by exists s].
  destruct (find_by_lift pl l) as [p|]; [|discriminate]. rewrite Ok_bind in *.
  destruct (truthy p); simpl in *; [|injection H as <-; by exists s].
  apply record_entry_spec in H
    as (e_w & p_w & lo & hi & e_d & p_d & He & Hp & Hr & Hed & Hpd & ->).
  rewrite (record_entry_run k u e p s e_w p_w lo hi e_d p_d) by done.
  eexists. split; [reflexivity|]. by apply shifted_both.
Qed.

Lemma step_entries_shift (o : stats) (b : ckey -> stats) (k : ckey) (u pl : pyval)
    (es : list pyval) :
  forall t t' s,
    foldM (step_entry k u pl) t es = Ok t' -> shifted o b t s ->
    exists s', foldM (step_entry k u pl) s es = Ok s' /\ shifted o b t' s'.
Proof.
  induction es as [|e es IH]; intros t t' s H Hsh; simpl in *.
  - injection H as <-. by exists s.
  - apply bind_Ok in H as (t1 & H1 & H).
    destruct (step_entry_shift o b k u pl t e t1 s H1 Hsh) as (s1 & -> & Hsh1).
    rewrite Ok_bind. by eapply IH.
Qed.

Lemma step_record_shift (o : stats) (b : ckey -> stats) (pred : gmap ident pyval)
    (t : tally) (r : pyval) (t' s : tally) :
  step_record pred t r = Ok t' -> shifted o b t s ->
  exists s', step_record pred s r = Ok s' /\ shifted o b t' s'.
Proof.
  intros H Hsh. unfold step_record in *.
  destruct (expected_list r) as [v|]; [|discriminate]. rewrite Ok_bind in *.
  destruct (truthy v); simpl in *; [|injection H as <-; by exists s].
  destruct (key r) as [k|]; [|discriminate]. rewrite Ok_bind in *.
  destruct (hash_key k) as [h|]; [|discriminate]. rewrite Ok_bind in *.
  destruct (pred !! h) as [q|]; [|injection H as <-; by exists s].
  destruct (predicted_list q) as [pl|]; [|discriminate]. rewrite Ok_bind in *.
  destruct (py_iter v) as [es|]; [|discriminate]. rewrite Ok_bind in *.
  by eapply step_entries_shift.
Qed.

Lemma step_records_shift (o : stats) (b : ckey -> stats) (pred : gmap ident pyval)
    (ds : list pyval) :
  forall t t' s,
    foldM (step_record pred) t ds = Ok t' -> shifted o b t s ->
    exists s', foldM (step_record pred) s ds = Ok s' /\ shifted o b t' s'.
Proof.
  induction ds as [|r ds IH]; intros t t' s H Hsh; simpl in *.
  - injection H as <-. by exists s.
  - apply bind_Ok in H as (t1 & H1 & H).
    destruct (step_record_shift o b pred t r t1 s H1 Hsh) as (s1 & -> & Hsh1).
    rewrite Ok_bind. by eapply IH.
Qed.

(** X20: scoring is additive.  Two datasets that each evaluate against the
    same predictions also evaluate one after the other, and the overall
    figures and the figures of every user are those of the first taken
    together with those of the second: counts add and error samples follow
    one another. *)
Theorem evaluate_app (pred : gmap ident pyval) (ds1 ds2 : list pyval)
    (t1 t2 : tally) :
  evaluate pred ds1 = Ok t1 -> evaluate pred ds2 = Ok t2 ->
  exists t,
    evaluate pred (ds1 ++ ds2) = Ok t /\
    overall t = add_stats (overall t1) (overall t2) /\
    forall k, user_stats k (per_user t)
              = add_stats (user_stats k (per_user t1)) (user_stats k (per_user t2)).
Proof.
  unfold evaluate. intros H1 H2. rewrite foldM_app, H1, Ok_bind.
  destruct (step_records_shift (overall t1) (fun k => user_stats k (per_user t1))
              pred ds2 init_tally t2 t1 H2) as (t & Ht & Ho & Hu).
  - split; simpl; [by rewrite add_stats_zero|].
    intros k. by rewrite add_stats_zero.
  - by exists t.
Qed.


(** ** Records and predictions that do not meet *)

(** X21: the identity fields of a dataset record are read only once its
    expected list is known not to be empty: a record with entries to
    evaluate and without [user_id], [date] or [session_type] makes the
    evaluation raise [KeyError]. *)
Theorem record_without_key_raises (pred : gmap ident pyval) (t : tally)
    (d : list (string * pyval)) (v : pyval) :
  expected_list (VDict d) = Ok v -> truthy v = true ->
  assoc "user_id" d = None \/ assoc "date" d = None \/ assoc "session_type" d = None ->
  step_record pred t (VDict d) = Raise KeyError.
Proof.
  intros Hv Ht Hmiss. unfold step_record. rewrite Hv, Ok_bind, Ht. simpl.
  unfold key, getitem.
  destruct (assoc "user_id" d); [|done]. rewrite Ok_bind.
  destruct (assoc "date" d); [|done]. rewrite Ok_bind.
  destruct (assoc "session_type" d); [|done].
  by destruct Hmiss as [? | [? | ?]].
Qed.

Lemma step_record_insert_ne (pred : gmap ident pyval) (h : ident) (q : pyval)
    (t : tally) (r : pyval) :
  ident_of r ≠ Ok h ->
  step_record (<[h := q]> pred) t r = step_record pred t r.
Proof.
  intros Hne. unfold step_record.
  destruct (expected_list r) as [v|]; [|done]. rewrite !Ok_bind.
  destruct (truthy v); simpl; [|done].
  unfold ident_of in Hne.
  destruct (key r) as [k|]; [|done]. rewrite !Ok_bind in *.
  destruct (hash_key k) as [h'|]; [|done]. rewrite !Ok_bind.
  rewrite lookup_insert_ne; [done | congruence].
Qed.

(** X22: a prediction under a key that no dataset record has does not
    change the outcome of the evaluation: the figures, or the error, are
    those obtained without it. *)
Theorem unmatched_prediction_no_effect (pred : gmap ident pyval) (h : ident)
    (q : pyval) (ds : list pyval) :
  Forall (fun r => ident_of r ≠ Ok h) ds ->
  evaluate (<[h := q]> pred) ds = evaluate pred ds.
Proof.
  unfold evaluate. intros HF. generalize init_tally.
  induction HF as [|r ds Hr Hds IH]; intros t; simpl; [done|].
  rewrite step_record_insert_ne by done.
  destruct (step_record pred t r) as [t'|]; simpl; [apply IH | done].
Qed.


End Scorer.

Lemma usage_error_witness :
  length ["score_predictions.py"; "dataset.jsonl"] ≠ 3%nat /\
  (main sample_loads sample_float_of_str sample_fs
        ["score_predictions.py"; "dataset.jsonl"] start
     = ({| stdout := [usage]; opened := [] |}, SystemExit 2) /\
   exit_code (main sample_loads sample_float_of_str sample_fs
                   ["score_predictions.py"; "dataset.jsonl"] start).2 = 2).
Proof.
  split; [simpl; lia|].
  apply (usage_error sample_loads sample_float_of_str sample_fs). simpl; lia.
Defined.

(** * The properties at the sample data *)

Lemma agreement_iff_in_range_witness :
  exists t',
    record_entry sample_float_of_str (KStr "u1") (VStr "u1")
                 sample_expected sample_predicted init_tally = Ok t' /\
    exists e_w p_w lo hi rg,
      weight sample_float_of_str sample_expected = Ok e_w /\
      weight sample_float_of_str sample_predicted = Ok p_w /\
      get sample_expected "acceptable_range_lb" VNone = Ok rg /\
      (forall a b, rg = VList [a; b] ->
         to_float sample_float_of_str a = Ok lo /\
         to_float sample_float_of_str b = Ok hi) /\
      (truthy rg = false -> lo = e_w /\ hi = e_w) /\
      (agree (overall t') = S (agree (overall init_tally)) <->
         fleb lo p_w = true /\ fleb p_w hi = true) /\
      (agree (overall t') = agree (overall init_tally) <->
         ~ (fleb lo p_w = true /\ fleb p_w hi = true)) /\
      (agree (user_stats (KStr "u1") (per_user t'))
       = S (agree (user_stats (KStr "u1") (per_user init_tally))) <->
         fleb lo p_w = true /\ fleb p_w hi = true) /\
      (agree (user_stats (KStr "u1") (per_user t'))
       = agree (user_stats (KStr "u1") (per_user init_tally)) <->
         ~ (fleb lo p_w = true /\ fleb p_w hi = true)) /\
      (truthy rg = false ->
         (agree (overall t') = S (agree (overall init_tally)) <->
            feqb p_w e_w = true)).
Proof.
  eexists. split; [vm_compute; reflexivity|].
  apply (agreement_iff_in_range sample_float_of_str (KStr "u1") (VStr "u1")
           sample_expected sample_predicted init_tally).
  vm_compute; reflexivity.
Defined.

Lemma skipped_record_witness :
  expected_list sample_record = Ok (VList [sample_expected]) /\
  (truthy (VList [sample_expected]) = false \/
   exists h, ident_of sample_record = Ok h /\ (∅ : gmap ident pyval) !! h = None) /\
  (forall t, step_record sample_float_of_str ∅ t sample_record = Ok t) /\
  (forall ds1 ds2,
      evaluate sample_float_of_str ∅ (ds1 ++ sample_record :: ds2)
      = evaluate sample_float_of_str ∅ (ds1 ++ ds2)).
Proof.
  assert (H1 : expected_list sample_record = Ok (VList [sample_expected]))
    by (vm_compute; reflexivity).
  assert (H2 : truthy (VList [sample_expected]) = false \/
               exists h, ident_of sample_record = Ok h /\
                         (∅ : gmap ident pyval) !! h = None).
  { right. eexists. split; [vm_compute; reflexivity | reflexivity]. }
  split; [exact H1|]. split; [exact H2|].
  exact (skipped_record sample_float_of_str ∅ sample_record
           (VList [sample_expected]) H1 H2).
Defined.

Lemma main_lift_strings_witness :
  get sample_expected "lift" VNone = Ok (VStr "squat") /\
  in_MAIN (VStr "squat") = Ok true /\
  step_entry sample_float_of_str (KStr "u1") (VStr "u1")
             (VList [sample_predicted]) init_tally sample_expected
  = find_by_lift (VList [sample_predicted]) (VStr "squat") ≫= fun p =>
      if truthy p
      then record_entry sample_float_of_str (KStr "u1") (VStr "u1")
                        sample_expected p init_tally
      else Ok init_tally.
Proof.
  assert (H1 : get sample_expected "lift" VNone = Ok (VStr "squat"))
    by reflexivity.
  assert (H2 : in_MAIN (VStr "squat") = Ok true) by (vm_compute; reflexivity).
  split; [exact H1|]. split; [exact H2|].
  destruct (main_lift_strings sample_float_of_str "squat") as (_ & Hin & _).
  exact (Hin (KStr "u1") (VStr "u1") (VList [sample_predicted]) init_tally
             sample_expected H1 H2).
Defined.

Lemma decision_counters_witness :
  exists t',
    record_entry sample_float_of_str (KStr "u1") (VStr "u1")
                 sample_expected sample_predicted init_tally = Ok t' /\
    exists e_d p_d,
      get sample_expected "decision" VNone = Ok e_d /\
      get sample_predicted "decision" VNone = Ok p_d /\
      let compared := is_not_None e_d && is_not_None p_d in
      let matched := compared && py_eq e_d p_d in
      decision_total (overall t')
        = (if compared then S (decision_total (overall init_tally))
           else decision_total (overall init_tally)) /\
      decision_total (user_stats (KStr "u1") (per_user t'))
        = (if compared
           then S (decision_total (user_stats (KStr "u1") (per_user init_tally)))
           else decision_total (user_stats (KStr "u1") (per_user init_tally))) /\
      decision_ok (overall t')
        = (if matched then S (decision_ok (overall init_tally))
           else decision_ok (overall init_tally)) /\
      decision_ok (user_stats (KStr "u1") (per_user t'))
        = (if matched
           then S (decision_ok (user_stats (KStr "u1") (per_user init_tally)))
           else decision_ok (user_stats (KStr "u1") (per_user init_tally))) /\
      total (overall t') = S (total (overall init_tally)) /\
      total (user_stats (KStr "u1") (per_user t'))
        = S (total (user_stats (KStr "u1") (per_user init_tally))) /\
      length (abs_err (overall t')) = S (length (abs_err (overall init_tally))).
Proof.
  eexists. split; [vm_compute; reflexivity|].
  apply (decision_counters sample_float_of_str (KStr "u1") (VStr "u1")
           sample_expected sample_predicted init_tally).
  vm_compute; reflexivity.
Defined.

Lemma index_last_write_wins_witness :
  exists pred,
    build_index [sample_prediction; sample_prediction_late; sample_prediction_other]
    = Ok pred /\
    ident_of sample_prediction = Ok (KStr "u1", KStr "2024-01-01", KStr "A") /\
    ident_of sample_prediction_late = Ok (KStr "u1", KStr "2024-01-01", KStr "A") /\
    Forall (fun r' => ident_of r' ≠ Ok (KStr "u1", KStr "2024-01-01", KStr "A"))
           [sample_prediction_other] /\
    pred !! (KStr "u1", KStr "2024-01-01", KStr "A") = Some sample_prediction_late.
Proof.
  assert (Hpost : Forall (fun r' => ident_of r' ≠ Ok (KStr "u1", KStr "2024-01-01", KStr "A"))
                         [sample_prediction_other]).
  { constructor; [|constructor]. vm_compute. discriminate. }
  eexists. split; [reflexivity|].
  split; [reflexivity|]. split; [reflexivity|]. split; [exact Hpost|].
  refine (proj1 (index_last_write_wins
                   [sample_prediction; sample_prediction_late; sample_prediction_other]
                   _ eq_refl)
                [sample_prediction] sample_prediction_late [sample_prediction_other]
                _ eq_refl eq_refl Hpost).
Defined.

Lemma find_by_lift_first_match_witness :
  Forall (fun y => exists l, get y "lift" VNone = Ok l /\
                             py_eq l (VStr "squat") = false) [sample_bench] /\
  get sample_predicted "lift" VNone = Ok (VStr "squat") /\
  py_eq (VStr "squat") (VStr "squat") = true /\
  find_by_lift (VList sample_prescription) (VStr "squat") = Ok sample_predicted.
Proof.
  assert (H1 : Forall (fun y => exists l, get y "lift" VNone = Ok l /\
                                          py_eq l (VStr "squat") = false)
                      [sample_bench]).
  { constructor; [|constructor]. exists (VStr "bench"). split; reflexivity. }
  split; [exact H1|]. split; [reflexivity|]. split; [reflexivity|].
  destruct (find_by_lift_first_match (VStr "squat")) as [Hfirst _].
  exact (Hfirst [sample_bench] sample_predicted [sample_squat_again]
                (VStr "squat") H1 eq_refl eq_refl).
Defined.

Lemma per_user_sums_to_overall_witness :
  exists t,
    evaluate sample_float_of_str sample_index [sample_record; sample_record] = Ok t /\
    total (overall t) = 2%nat /\
    sum_of total (users t) = total (overall t) /\
    sum_of agree (users t) = agree (overall t) /\
    sum_of decision_total (users t) = decision_total (overall t) /\
    sum_of decision_ok (users t) = decision_ok (overall t) /\
    samples_of (users t) ≡ₚ abs_err (overall t).
Proof.
  eexists. split; [vm_compute; reflexivity|]. split; [reflexivity|].
  apply (per_user_sums_to_overall sample_float_of_str sample_index
           [sample_record; sample_record]).
  vm_compute; reflexivity.
Defined.

Lemma per_user_total_positive_witness :
  exists t,
    evaluate sample_float_of_str sample_index [sample_record] = Ok t /\
    length (per_user t) = 1%nat /\
    Forall (fun it => (1 <= total it.2.2)%nat) (per_user t).
Proof.
  eexists. split; [vm_compute; reflexivity|]. split; [reflexivity|].
  eapply (per_user_total_positive sample_float_of_str sample_index [sample_record]).
  vm_compute; reflexivity.
Defined.

(** The names of the specification are not the strings of [MAIN]: an entry
    for ["bench press"] is not scored, whatever the prediction holds. *)
Lemma named_lifts_not_scored :
  ~ (forall s, In s named_lifts -> in_MAIN (VStr s) = Ok true).
Proof.
  intros H. specialize (H "bench press").
  assert (Hin : In "bench press" named_lifts) by (right; left; reflexivity).
  apply H in Hin. vm_compute in Hin. discriminate.
Defined.

(** * The further properties at the sample data *)

Lemma dataset_failure_stops_run_witness :
  (sample_fs "nowhere.jsonl" = None /\
   main sample_loads sample_float_of_str sample_fs
        ["score_predictions.py"; "nowhere.jsonl"; "predictions.jsonl"] start
   = (after [] ["nowhere.jsonl"], Uncaught OSError)) /\
  (sample_fs_broken "dataset.jsonl" = Some ["expected-1"; "{oops"] /\
   "{oops" ∈ ["expected-1"; "{oops"] /\
   blank "{oops" = false /\ sample_loads "{oops" = None /\
   main sample_loads sample_float_of_str sample_fs_broken
        ["score_predictions.py"; "dataset.jsonl"; "predictions.jsonl"] start
   = (after [] ["dataset.jsonl"], Uncaught JSONDecodeError)).
Proof.
  split.
  - split; [reflexivity|].
    apply (dataset_failure_stops_run sample_loads sample_float_of_str sample_fs).
    reflexivity.
  - assert (Hin : "{oops" ∈ ["expected-1"; "{oops"]) by (right; left).
    split; [reflexivity|]. split; [exact Hin|]. split; [reflexivity|].
    split; [reflexivity|].
    exact (proj2 (dataset_failure_stops_run sample_loads sample_float_of_str
                    sample_fs_broken "score_predictions.py" "dataset.jsonl"
                    "predictions.jsonl")
                 ["expected-1"; "{oops"] "{oops" eq_refl Hin eq_refl eq_refl).
Defined.

Lemma find_by_lift_sound_witness :
  find_by_lift (VList sample_prescription) (VStr "squat") = Ok sample_predicted /\
  (sample_predicted = VNone \/
   exists xs l,
     py_iter (VList sample_prescription) = Ok xs /\ sample_predicted ∈ xs /\
     get sample_predicted "lift" VNone = Ok l /\ py_eq l (VStr "squat") = true).
Proof.
  split; [reflexivity|].
  apply (find_by_lift_sound (VList sample_prescription) (VStr "squat")).
  reflexivity.
Defined.

Lemma unmatched_entry_skipped_witness :
  get sample_expected "lift" VNone = Ok (VStr "squat") /\
  in_MAIN (VStr "squat") = Ok true /\
  Forall (fun y => exists l, get y "lift" VNone = Ok l /\
                             py_eq l (VStr "squat") = false) [sample_bench] /\
  step_entry sample_float_of_str (KStr "u1") (VStr "u1") (VList [sample_bench])
             init_tally sample_expected = Ok init_tally.
Proof.
  assert (H2 : in_MAIN (VStr "squat") = Ok true) by (vm_compute; reflexivity).
  assert (H3 : Forall (fun y => exists l, get y "lift" VNone = Ok l /\
                                          py_eq l (VStr "squat") = false)
                      [sample_bench]).
  { constructor; [|constructor]. exists (VStr "bench"). split; reflexivity. }
  split; [reflexivity|]. split; [exact H2|]. split; [exact H3|].
  exact (unmatched_entry_skipped sample_float_of_str (KStr "u1") (VStr "u1")
           sample_expected (VStr "squat") [sample_bench] init_tally eq_refl H2 H3).
Defined.

Lemma null_prescription_raises_witness :
  get sample_expected "lift" VNone = Ok (VStr "squat") /\
  in_MAIN (VStr "squat") = Ok true /\
  py_iter VNone = Raise TypeError /\
  step_entry sample_float_of_str (KStr "u1") (VStr "u1") VNone
             init_tally sample_expected = Raise TypeError.
Proof.
  assert (H2 : in_MAIN (VStr "squat") = Ok true) by (vm_compute; reflexivity).
  split; [reflexivity|]. split; [exact H2|]. split; [reflexivity|].
  exact (null_prescription_raises sample_float_of_str (KStr "u1") (VStr "u1")
           sample_expected (VStr "squat") VNone init_tally eq_refl H2 eq_refl).
Defined.

Lemma index_lookup_sound_witness :
  build_index [sample_prediction] = Ok sample_index /\
  sample_index !! (KStr "u1", KStr "2024-01-01", KStr "A") = Some sample_prediction /\
  sample_prediction ∈ [sample_prediction] /\
  ident_of sample_prediction = Ok (KStr "u1", KStr "2024-01-01", KStr "A").
Proof.
  assert (H2 : sample_index !! (KStr "u1", KStr "2024-01-01", KStr "A")
               = Some sample_prediction) by apply lookup_insert_eq.
  split; [reflexivity|]. split; [exact H2|].
  exact (index_lookup_sound [sample_prediction] sample_index
           (KStr "u1", KStr "2024-01-01", KStr "A") sample_prediction eq_refl H2).
Defined.

Lemma counters_bounded_witness :
  exists t,
    evaluate sample_float_of_str sample_index2 [sample_record; sample_record_u2] = Ok t /\
    bounded (overall t) /\ Forall (fun it => bounded it.2.2) (per_user t).
Proof.
  eexists. split; [vm_compute; reflexivity|].
  apply (counters_bounded sample_float_of_str sample_index2
           [sample_record; sample_record_u2]).
  vm_compute; reflexivity.
Defined.

Lemma samples_not_negative_witness :
  exists t,
    evaluate sample_float_of_str sample_index2 [sample_record; sample_record_u2] = Ok t /\
    Forall not_negative (abs_err (overall t)) /\
    Forall (fun it => Forall not_negative (abs_err it.2.2)) (per_user t).
Proof.
  eexists. split; [vm_compute; reflexivity|].
  apply (samples_not_negative sample_float_of_str sample_index2
           [sample_record; sample_record_u2]).
  vm_compute; reflexivity.
Defined.

Lemma one_entry_per_user_witness :
  exists t,
    evaluate sample_float_of_str sample_index2
             [sample_record; sample_record_u2; sample_record] = Ok t /\
    length (per_user t) = 2%nat /\
    NoDup (user_keys (per_user t)).
Proof.
  eexists. split; [vm_compute; reflexivity|]. split; [reflexivity|].
  apply (one_entry_per_user sample_float_of_str sample_index2
           [sample_record; sample_record_u2; sample_record]).
  vm_compute; reflexivity.
Defined.

Lemma other_users_untouched_witness :
  exists t',
    step_record sample_float_of_str sample_index
                (both (KStr "u2") (VStr "u2") inc_total init_tally) sample_record
    = Ok t' /\
    (forall h, ident_of sample_record = Ok h -> KStr "u2" ≠ h.1.1) /\
    pu_lookup (KStr "u2") (per_user t')
    = pu_lookup (KStr "u2")
                (per_user (both (KStr "u2") (VStr "u2") inc_total init_tally)).
Proof.
  assert (Hne : forall h, ident_of sample_record = Ok h -> KStr "u2" ≠ h.1.1).
  { intros h Hh. vm_compute in Hh. injection Hh as <-. simpl. discriminate. }
  eexists. split; [vm_compute; reflexivity|]. split; [exact Hne|].
  apply (other_users_untouched sample_float_of_str sample_index
           (both (KStr "u2") (VStr "u2") inc_total init_tally) sample_record).
  - vm_compute; reflexivity.
  - exact Hne.
Defined.

Lemma record_adds_at_most_its_entries_witness :
  exists t',
    step_record sample_float_of_str sample_index init_tally sample_record = Ok t' /\
    expected_list sample_record = Ok (VList [sample_expected]) /\
    py_iter (VList [sample_expected]) = Ok [sample_expected] /\
    (total (overall init_tally) <= total (overall t')
     <= total (overall init_tally) + length [sample_expected])%nat.
Proof.
  eexists. split; [vm_compute; reflexivity|]. split; [reflexivity|].
  split; [reflexivity|].
  apply (record_adds_at_most_its_entries sample_float_of_str sample_index init_tally
           sample_record _ (VList [sample_expected]) [sample_expected]);
    [vm_compute; reflexivity | reflexivity | reflexivity].
Defined.

Lemma missing_weights_agree_witness :
  get sample_bare "prescribed_weight_lb" VNone = Ok VNone /\
  truthy VNone = false /\
  get sample_bare "acceptable_range_lb" VNone = Ok VNone /\
  get sample_bare "decision" VNone = Ok VNone /\
  record_entry sample_float_of_str (KStr "u1") (VStr "u1") sample_bare sample_bare
               init_tally
  = Ok (both (KStr "u1") (VStr "u1")
             (entry_effect (S754_zero false) true (decision_of VNone VNone))
             init_tally).
Proof.
  repeat (split; [reflexivity|]).
  exact (missing_weights_agree sample_float_of_str (KStr "u1") (VStr "u1")
           sample_bare sample_bare init_tally VNone VNone VNone VNone VNone
           eq_refl eq_refl eq_refl eq_refl eq_refl eq_refl eq_refl eq_refl).
Defined.

Lemma malformed_range_raises_witness :
  weight sample_float_of_str sample_three_bounds = Ok (float_of_int 200) /\
  weight sample_float_of_str sample_predicted = Ok (float_of_int 205) /\
  get sample_three_bounds "acceptable_range_lb" VNone
  = Ok (VList [VInt 190; VInt 200; VInt 210]) /\
  [VInt 190; VInt 200; VInt 210] ≠ [] /\
  length [VInt 190; VInt 200; VInt 210] ≠ 2%nat /\
  record_entry sample_float_of_str (KStr "u1") (VStr "u1") sample_three_bounds
               sample_predicted init_tally
  = Raise ValueError.
Proof.
  assert (H1 : weight sample_float_of_str sample_three_bounds = Ok (float_of_int 200))
    by (vm_compute; reflexivity).
  assert (H2 : weight sample_float_of_str sample_predicted = Ok (float_of_int 205))
    by (vm_compute; reflexivity).
  assert (H4 : [VInt 190; VInt 200; VInt 210] ≠ []) by discriminate.
  assert (H5 : length [VInt 190; VInt 200; VInt 210] ≠ 2%nat) by (simpl; lia).
  split; [exact H1|]. split; [exact H2|]. split; [reflexivity|].
  split; [exact H4|]. split; [exact H5|].
  exact (malformed_range_raises sample_float_of_str (KStr "u1") (VStr "u1")
           sample_three_bounds sample_predicted init_tally _ _ _ H1 H2 eq_refl H4 H5).
Defined.

Lemma in_range_edges_witness :
  in_range (float_of_int 205) (float_of_int 190) (float_of_int 210) = true /\
  fleb (float_of_int 190) (float_of_int 210) = true /\
  in_range (float_of_int 190) (float_of_int 190) (float_of_int 210) = true /\
  in_range (float_of_int 210) (float_of_int 190) (float_of_int 210) = true.
Proof.
  assert (H : in_range (float_of_int 205) (float_of_int 190) (float_of_int 210) = true)
    by (vm_compute; reflexivity).
  destruct (in_range_edges (float_of_int 205) (float_of_int 190) (float_of_int 210))
    as [H1 H2].
  destruct (H1 H) as (Hle & _). destruct (H2 Hle) as [Hlo Hhi]. done.
Defined.



Lemma evaluate_app_witness :
  exists t1 t2,
    evaluate sample_float_of_str sample_index2 [sample_record] = Ok t1 /\
    evaluate sample_float_of_str sample_index2 [sample_record_u2; sample_record] = Ok t2 /\
    exists t,
      evaluate sample_float_of_str sample_index2
               ([sample_record] ++ [sample_record_u2; sample_record]) = Ok t /\
      overall t = add_stats (overall t1) (overall t2) /\
      forall k, user_stats k (per_user t)
                = add_stats (user_stats k (per_user t1)) (user_stats k (per_user t2)).
Proof.
  eexists _, _. split; [vm_compute; reflexivity|]. split; [vm_compute; reflexivity|].
  apply (evaluate_app sample_float_of_str sample_index2
           [sample_record] [sample_record_u2; sample_record]);
    vm_compute; reflexivity.
Defined.

Lemma record_without_key_raises_witness :
  expected_list (VDict sample_no_user) = Ok (VList [sample_expected]) /\
  truthy (VList [sample_expected]) = true /\
  (assoc "user_id" sample_no_user = None \/ assoc "date" sample_no_user = None \/
   assoc "session_type" sample_no_user = None) /\
  step_record sample_float_of_str sample_index init_tally (VDict sample_no_user)
  = Raise KeyError.
Proof.
  assert (H3 : assoc "user_id" sample_no_user = None \/
               assoc "date" sample_no_user = None \/
               assoc "session_type" sample_no_user = None) by (left; reflexivity).
  split; [reflexivity|]. split; [reflexivity|]. split; [exact H3|].
  exact (record_without_key_raises sample_float_of_str sample_index init_tally
           sample_no_user (VList [sample_expected]) eq_refl eq_refl H3).
Defined.

Lemma unmatched_prediction_no_effect_witness :
  Forall (fun r => ident_of r ≠ Ok (KStr "u2", KStr "2024-01-01", KStr "A"))
         [sample_record] /\
  evaluate sample_float_of_str
           (<[(KStr "u2", KStr "2024-01-01", KStr "A") := sample_prediction_u2]>
              sample_index)
           [sample_record]
  = evaluate sample_float_of_str sample_index [sample_record].
Proof.
  assert (H : Forall (fun r => ident_of r ≠ Ok (KStr "u2", KStr "2024-01-01", KStr "A"))
                     [sample_record]).
  { constructor; [|constructor]. vm_compute. discriminate. }
  split; [exact H|].
  exact (unmatched_prediction_no_effect sample_float_of_str sample_index
           (KStr "u2", KStr "2024-01-01", KStr "A") sample_prediction_u2
           [sample_record] H).
Defined.
